(** * HackerOne hacktivity relay bot ([src/main.js])

    A shallow embedding of the [HackerOneDiscordBot] class: the start-up
    sequence ([constructor], [initializeFiles]), the administrative command
    ([setupMonitoringChannel]), the start of monitoring
    ([startHacktivityMonitoring]), one polling cycle
    ([checkHacktivityReports]) and the formatter ([createReportEmbed],
    [getSeverityIcon], [getSeverityColor], [formatBounty]).

    Conventions.
    - JavaScript strings are sequences of code units; they are modelled by
      [string].  [String.prototype.includes] is [Str.includes].  The one
      literal of the source outside ASCII, the money bag, is spelled in
      UTF-8 as the source file has it; [Str.length] is [s.length], the
      number of code units of the text so spelled.
    - A property read [o[k]] of an object literal looks at the literal,
      then at [Object.prototype].
    - [EmbedBuilder] is a record of the values it is given.  Its setters
      check them and throw: a title of 1 to 256 code units, a link the URL
      parser accepts with the scheme http or https, a description of 1 to
      4096 code units, a colour that is an integer from 0 to 0xFFFFFF,
      field values that are strings of 1 to 1024 code units.  The URL
      parser is not part of the program: which links it accepts is the
      parameter [valid_url].
    - Asynchronous methods are written in a state-and-exception monad [M]
      over the record [World]: files, the fields of [this], registered
      timers and the trace of observable effects.  An [await] that rejects
      is a [Throw]; [try]/[catch] is [try_catch].
    - What the environment decides is an input: the response of the feed
      (an argument of the cycle), the outcome of the k-th call of
      [channel.send] (the field [deliver]), the channels known to the
      client (the field [cache]) and the working directory ([cwd]).
    - File operations act on a reliable store: reading or probing a file
      fails exactly when it is missing or when the path is [undefined];
      writes complete.
    - A handler (ready, timer tick, chat message) runs to completion
      before the next event is handled, and the continuation of
      [initializeFiles] runs before the client becomes ready.  An error no
      handler catches ends the run. *)

From Stdlib Require Import Ascii ZArith Lia.
From stdpp Require Import base list strings gmap.

Local Open Scope Z_scope.
Local Open Scope nat_scope.

(** ** Strings *)

Module Str.

Definition nl : string := String (ascii_of_nat 10) EmptyString.

(** [s.startsWith(p)] *)
Fixpoint startsWith (p s : string) : bool :=
  match p, s with
  | EmptyString, _ => true
  | String _ _, EmptyString => false
  | String a p', String b s' => if Ascii.eqb a b then startsWith p' s' else false
  end.

(** [s.includes(p)]: [p] occurs in [s] at some position. *)
Fixpoint includes (s p : string) : bool :=
  startsWith p s ||
  match s with
  | EmptyString => false
  | String _ s' => includes s' p
  end.

(** The declarative reading of containment. *)
Definition occurs_in (p s : string) : Prop :=
  exists pre post, s = pre +:+ p +:+ post.

Fixpoint all_chars (f : ascii -> bool) (s : string) : bool :=
  match s with
  | EmptyString => true
  | String c s' => f c && all_chars f s'
  end.

Fixpoint concat (l : list string) : string :=
  match l with
  | [] => EmptyString
  | s :: l' => s +:+ concat l'
  end.

(** The code units a byte of UTF-8 text stands for: one for an ASCII
    character and for the first byte of a character of the basic plane,
    two for the first byte of a character beyond it, none for a byte that
    continues a character. *)
Definition units_of (c : ascii) : nat :=
  let n := nat_of_ascii c in
  if n <? 128 then 1 else if n <? 192 then 0 else if n <? 240 then 1 else 2.

(** [s.length] *)
Fixpoint length (s : string) : nat :=
  match s with
  | EmptyString => 0
  | String c s' => units_of c + length s'
  end.

End Str.

(** ** JavaScript values *)

(** A field of the feed's JSON that holds a string, [null], or is missing. *)
Inductive nullable :=
| JUndefined
| JNull
| JString (s : string).

(** [String(v)], also the property key [v] is turned into by [o[v]]. *)
Definition ToString (v : nullable) : string :=
  match v with
  | JUndefined => "undefined"
  | JNull => "null"
  | JString s => s
  end.

(** What a property read of an object literal can yield: a string or a
    number of the literal, a member inherited from [Object.prototype], or
    [undefined]. *)
Inductive jsval :=
| VUndefined
| VString (s : string)
| VNumber (n : Z)
| VBuiltin (name : string).

Definition truthy (v : jsval) : bool :=
  match v with
  | VUndefined => false
  | VString s => negb (String.eqb s "")
  | VNumber n => negb (n =? 0)%Z
  | VBuiltin _ => true
  end.

(** [a || b] *)
Definition js_or (a b : jsval) : jsval := if truthy a then a else b.

(** The names every object literal inherits from [Object.prototype]. *)
Definition Object_prototype : list string :=
  [ "constructor"; "__defineGetter__"; "__defineSetter__"; "hasOwnProperty";
    "__lookupGetter__"; "__lookupSetter__"; "isPrototypeOf";
    "propertyIsEnumerable"; "toString"; "valueOf"; "__proto__";
    "toLocaleString" ].

(** [o[k]] for an object literal [o]: own properties first, then the
    prototype. *)
Definition get_property (o : gmap string jsval) (k : string) : jsval :=
  match o !! k with
  | Some v => v
  | None => if bool_decide (k ∈ Object_prototype) then VBuiltin k else VUndefined
  end.

(** ** Errors and outcomes *)

(** What the program can catch: the errors of [Intl.NumberFormat] and of
    property reads, of the file system, of the request, of a delivery,
    and the error a setter of the embed builder throws for a value it
    refuses. *)
Inductive error :=
| TypeError (msg : string)
| RangeError (msg : string)
| ENOENT (path : string)
| AxiosError
| DiscordAPIError
| ValidationError (setter : string).

Inductive outcome (A : Type) :=
| Ret (a : A)
| Throw (e : error).
Arguments Ret {A} a.
Arguments Throw {A} e.

(** ** Formatter: severity tables *)

Definition icons : gmap string jsval :=
  list_to_map
    [ ("None", VString ":white_circle: Info");
      ("Low", VString ":green_circle: Low");
      ("Medium", VString ":yellow_circle: Medium");
      ("High", VString ":orange_circle: High");
      ("Critical", VString ":red_circle: Critical") ].

Definition getSeverityIcon (severity : nullable) : jsval :=
  js_or (get_property icons (ToString severity)) (VString "-").

Definition colors : gmap string jsval :=
  list_to_map
    [ ("Critical", VNumber 0xFF0000);
      ("High", VNumber 0xFF6600);
      ("Medium", VNumber 0xFFFF00);
      ("Low", VNumber 0x00FF00);
      ("None", VNumber 0x808080) ].

Definition getSeverityColor (severity : nullable) : jsval :=
  js_or (get_property colors (ToString severity)) (VNumber 0x000000).

Definition known_severities : list string :=
  [ "None"; "Low"; "Medium"; "High"; "Critical" ].

(** ** Formatter: currency *)

Definition is_ascii_letter (c : ascii) : bool :=
  let n := nat_of_ascii c in
  (65 <=? n) && (n <=? 90) || (97 <=? n) && (n <=? 122).

(** ECMA-402 [IsWellFormedCurrencyCode]: exactly three ASCII letters. *)
Definition IsWellFormedCurrencyCode (code : string) : bool :=
  (String.length code =? 3) && Str.all_chars is_ascii_letter code.

(** ** Formatter: the checks of the embed builder *)

Definition within (lo hi n : nat) : bool := (lo <=? n) && (n <=? hi).

(** [setTitle]: a string of 1 to 256 code units. *)
Definition titlePredicate (s : string) : bool := within 1 256 (Str.length s).

(** [setDescription]: a string of 1 to 4096 code units. *)
Definition descriptionPredicate (s : string) : bool := within 1 4096 (Str.length s).

(** [setColor]: an integer from 0 to 0xFFFFFF.  [getSeverityColor] yields
    a number of its table, 0, or a member inherited from
    [Object.prototype]; the last is no number and is refused. *)
Definition colorPredicate (c : jsval) : bool :=
  match c with
  | VNumber n => (0 <=? n)%Z && (n <=? 0xFFFFFF)%Z
  | _ => false
  end.

(** [addFields]: the value of a field is a string of 1 to 1024 code
    units. *)
Definition fieldValuePredicate (v : jsval) : bool :=
  match v with
  | VString s => within 1 1024 (Str.length s)
  | _ => false
  end.

(** ** The bot *)

Section Bot.

(** The awarded amount as the feed gives it, and the text
    [new Intl.NumberFormat('en-US', {style: 'currency', currency}).format(amount)]
    yields for a well-formed currency code.  The locale data behind it is
    not part of the program. *)
Variable Amount : Type.
Variable currency_text : string -> Amount -> string.

(** The links [setURL] accepts: those [new URL] parses, with the scheme
    http or https.  The URL parser is not part of the program. *)
Variable valid_url : string -> bool.

(** *** Feed items *)

Record Report := mkReport {
  databaseId : string;
  title : string;
  url : string;
  (** [report_generated_content?.hacktivity_summary]; [None] when either
      is missing or [null]. *)
  hacktivity_summary : option string
}.

Record Node := mkNode {
  report : Report;
  reporter_username : string;
  team_name : string;
  team_handle : string;
  team_currency : nullable;
  severity_rating : nullable;
  total_awarded_amount : Amount
}.

(** What [axios.post] gives: a rejection, a response without
    [data.data.search.nodes], or the nodes. *)
Inductive response :=
| Rejected
| NoNodes
| Nodes (nodes : list Node).

(** *** Notification payload *)

Record Field := mkField {
  name : string;
  value : jsval;
  inline : bool
}.

Record Embed := mkEmbed {
  embed_title : string;
  embed_url : string;
  description : string;
  color : jsval;
  fields : list Field
}.

Definition formatBounty (amount : Amount) (currency : nullable) : outcome string :=
  match currency with
  | JUndefined => Throw (TypeError "Currency code is required with currency style.")
  | _ =>
      let code := ToString currency in
      if IsWellFormedCurrencyCode code
      then Ret ("💰 " +:+ currency_text code amount)
      else Throw (RangeError ("Invalid currency code : " +:+ code))
  end.

(** A currency [Intl.NumberFormat] rejects: missing, or not three letters. *)
Definition rejected_currency (currency : nullable) : Prop :=
  currency = JUndefined \/ IsWellFormedCurrencyCode (ToString currency) = false.

Definition summary_of (r : Report) : string :=
  match hacktivity_summary r with
  | Some s => if String.eqb s "" then "No summary" else s
  | None => "No summary"
  end.

(** The argument of [setDescription]. *)
Definition description_text (node : Node) : string :=
  ":pencil: Disclosed by [@" +:+ reporter_username node +:+
  "](https://hackerone.com/" +:+ reporter_username node +:+ ") " +:+
  "to [**" +:+ team_name node +:+ "**](https://hackerone.com/" +:+
  team_handle node +:+ ")" +:+ Str.nl +:+ Str.nl +:+ summary_of (report node).

(** The setters run in the order of the chain, each on its argument, and
    the first that refuses throws; the arguments of [addFields], the call
    of [formatBounty] among them, are evaluated after [setColor] has
    returned. *)
Definition createReportEmbed (node : Node) : outcome Embed :=
  let r := report node in
  if negb (titlePredicate (title r)) then Throw (ValidationError "setTitle") else
  if negb (valid_url (url r)) then Throw (ValidationError "setURL") else
  let text := description_text node in
  if negb (descriptionPredicate text) then Throw (ValidationError "setDescription") else
  let c := getSeverityColor (severity_rating node) in
  if negb (colorPredicate c) then Throw (ValidationError "setColor") else
  let icon := getSeverityIcon (severity_rating node) in
  match formatBounty (total_awarded_amount node) (team_currency node) with
  | Throw e => Throw e
  | Ret bounty =>
      if fieldValuePredicate icon && fieldValuePredicate (VString bounty) then
        Ret {| embed_title := title r;
               embed_url := url r;
               description := text;
               color := c;
               fields := [ mkField "Severity" icon true;
                           mkField "Bounty" (VString bounty) true ] |}
      else Throw (ValidationError "addFields")
  end.

(** The checks made before the bounty is formatted. *)
Definition setters_accept (node : Node) : bool :=
  titlePredicate (title (report node)) && valid_url (url (report node)) &&
  descriptionPredicate (description_text node) &&
  colorPredicate (getSeverityColor (severity_rating node)).

(** *** Observable effects *)

Inductive event :=
| ConsoleLog (text : string)
| ConsoleError (text : string) (detail : option error)
| HttpPost (target : string)
| ChannelSend (channel : string) (item : Node) (payload : Embed) (delivered : bool)
| FileWrite (path data : string)
| FileAppend (path data : string)
| Timeout (ms : Z)
| Reply (channel text : string).

Record World := mkWorld {
  cwd : string;                  (* process.cwd() *)
  user_tag : string;             (* client.user.tag *)
  cache : list string;           (* ids in client.channels.cache *)
  deliver : nat -> bool;         (* does the k-th channel.send succeed *)
  files : gmap string string;
  logFile : option string;       (* this.logFile, None while undefined *)
  channelFile : option string;   (* this.channelFile *)
  intervals : list string;       (* channel of each setInterval callback *)
  sends : nat;                   (* calls of channel.send so far *)
  trace : list event
}.

Definition set_files (f : gmap string string) (w : World) : World :=
  mkWorld (cwd w) (user_tag w) (cache w) (deliver w) f (logFile w)
          (channelFile w) (intervals w) (sends w) (trace w).

Definition set_logFile (p : option string) (w : World) : World :=
  mkWorld (cwd w) (user_tag w) (cache w) (deliver w) (files w) p
          (channelFile w) (intervals w) (sends w) (trace w).

Definition set_channelFile (p : option string) (w : World) : World :=
  mkWorld (cwd w) (user_tag w) (cache w) (deliver w) (files w) (logFile w)
          p (intervals w) (sends w) (trace w).

Definition set_intervals (l : list string) (w : World) : World :=
  mkWorld (cwd w) (user_tag w) (cache w) (deliver w) (files w) (logFile w)
          (channelFile w) l (sends w) (trace w).

Definition set_sends (n : nat) (w : World) : World :=
  mkWorld (cwd w) (user_tag w) (cache w) (deliver w) (files w) (logFile w)
          (channelFile w) (intervals w) n (trace w).

Definition set_trace (t : list event) (w : World) : World :=
  mkWorld (cwd w) (user_tag w) (cache w) (deliver w) (files w) (logFile w)
          (channelFile w) (intervals w) (sends w) t.

Definition emit (e : event) (w : World) : World :=
  set_trace (trace w ++ [e]) w.

(** *** The monad of asynchronous methods *)

Definition M (A : Type) : Type := World -> outcome A * World.

Definition ret {A} (a : A) : M A := fun w => (Ret a, w).

Definition throw {A} (e : error) : M A := fun w => (Throw e, w).

Definition bind {A B} (m : M A) (k : A -> M B) : M B :=
  fun w =>
    match m w with
    | (Ret a, w') => k a w'
    | (Throw e, w') => (Throw e, w')
    end.

Definition try_catch {A} (body : M A) (handler : error -> M A) : M A :=
  fun w =>
    match body w with
    | (Ret a, w') => (Ret a, w')
    | (Throw e, w') => handler e w'
    end.

Definition gets {A} (f : World -> A) : M A := fun w => (Ret (f w), w).

Definition modify (f : World -> World) : M unit := fun w => (Ret tt, f w).

Definition lift {A} (o : outcome A) : M A := fun w => (o, w).

Notation "x <- m ;; k" := (bind m (fun x => k))
  (at level 100, m at next level, right associativity).
Notation "m ;; k" := (bind m (fun _ => k))
  (at level 100, right associativity).

(** [for (const x of l) body(x)] *)
Fixpoint for_of {A} (body : A -> M unit) (l : list A) : M unit :=
  match l with
  | [] => ret tt
  | x :: rest => body x ;; for_of body rest
  end.

(** *** Primitives *)

Definition console_log (text : string) : M unit := modify (emit (ConsoleLog text)).

Definition console_error (text : string) (detail : option error) : M unit :=
  modify (emit (ConsoleError text detail)).

Definition path_join (dir file : string) : string := dir +:+ "/" +:+ file.

Definition invalid_path : error :=
  TypeError "The path argument must be of type string. Received undefined".

Definition fs_access (path : option string) : M unit :=
  match path with
  | None => throw invalid_path
  | Some p =>
      f <- gets files ;;
      match f !! p with
      | Some _ => ret tt
      | None => throw (ENOENT p)
      end
  end.

Definition fs_readFile (path : option string) : M string :=
  match path with
  | None => throw invalid_path
  | Some p =>
      f <- gets files ;;
      match f !! p with
      | Some data => ret data
      | None => throw (ENOENT p)
      end
  end.

Definition fs_writeFile (path : option string) (data : string) : M unit :=
  match path with
  | None => throw invalid_path
  | Some p =>
      modify (fun w => emit (FileWrite p data) (set_files (<[p := data]> (files w)) w))
  end.

Definition fs_appendFile (path : option string) (data : string) : M unit :=
  match path with
  | None => throw invalid_path
  | Some p =>
      modify (fun w =>
        emit (FileAppend p data)
             (set_files (<[p := default "" (files w !! p) +:+ data]> (files w)) w))
  end.

Definition setTimeout (ms : Z) : M unit := modify (emit (Timeout ms)).

Definition channel_send (channel : string) (item : Node) (payload : Embed) : M unit :=
  fun w =>
    let ok := deliver w (sends w) in
    let w' := emit (ChannelSend channel item payload ok) (set_sends (S (sends w)) w) in
    if ok then (Ret tt, w') else (Throw DiscordAPIError, w').

Definition axios_post (target : string) (r : response) : M response :=
  modify (emit (HttpPost target)) ;;
  match r with
  | Rejected => throw AxiosError
  | _ => ret r
  end.

Definition no_nodes : error :=
  TypeError "Cannot read properties of undefined (reading 'search')".

(** [req.data.data.search.nodes] *)
Definition search_nodes (req : response) : M (list Node) :=
  match req with
  | Nodes l => ret l
  | _ => throw no_nodes
  end.

Definition setInterval (channel : string) : M unit :=
  modify (fun w => set_intervals (intervals w ++ [channel]) w).

(** *** [checkHacktivityReports] *)

(** The body of the loop over the fetched nodes; [log] is the text read
    once before the loop. *)
Definition report_step (channel log : string) (node : Node) : M unit :=
  let reportId := databaseId (report node) in
  if Str.includes log reportId then
    console_log (reportId +:+ " skipping...")
  else
    embed <- lift (createReportEmbed node) ;;
    channel_send channel node embed ;;
    p <- gets logFile ;;
    fs_appendFile p (reportId +:+ Str.nl) ;;
    setTimeout 5000.

Definition feed : string := "https://hackerone.com/graphql".

Definition checkHacktivityReports (channel : string) (r : response) : M unit :=
  try_catch
    (req <- axios_post feed r ;;
     p <- gets logFile ;;
     log <- fs_readFile p ;;
     nodes <- search_nodes req ;;
     for_of (report_step channel log) nodes)
    (fun e => console_error "Detailed error:" (Some e)).

(** *** [startHacktivityMonitoring] *)

Definition startHacktivityMonitoring (r : response) : M unit :=
  try_catch
    (p <- gets channelFile ;;
     channelId <- fs_readFile p ;;
     known <- gets cache ;;
     if bool_decide (channelId ∈ known) then
       checkHacktivityReports channelId r ;;
       setInterval channelId
     else
       console_error "Monitoring channel not found" None)
    (fun e => console_error "Monitoring setup error:" (Some e)).

(** *** [setupMonitoringChannel] and the event handlers *)

Record Message := mkMessage {
  content : string;
  channel_id : string;
  administrator : bool
}.

Definition reply (m : Message) (text : string) : M unit :=
  modify (emit (Reply (channel_id m) text)).

Definition setupMonitoringChannel (m : Message) : M unit :=
  if administrator m then
    p <- gets channelFile ;;
    fs_writeFile p (channel_id m) ;;
    reply m ("Channel " +:+ channel_id m +:+ " set for HackerOne monitoring")
  else
    reply m "Only administrators can set monitoring channel".

Definition on_ready (r : response) : M unit :=
  tag <- gets user_tag ;;
  console_log ("Logged in as " +:+ tag) ;;
  startHacktivityMonitoring r.

Definition on_messageCreate (m : Message) : M unit :=
  if String.eqb (content m) ".setup" then setupMonitoringChannel m else ret tt.

(** The [i]-th registered interval fires; [r] is what the feed answers. *)
Definition on_interval (i : nat) (r : response) : M unit :=
  timers <- gets intervals ;;
  match timers !! i with
  | Some channel => checkHacktivityReports channel r
  | None => ret tt
  end.

Inductive input :=
| Ready (r : response)
| Tick (i : nat) (r : response)
| MessageCreate (m : Message).

Definition handle (i : input) : M unit :=
  match i with
  | Ready r => on_ready r
  | Tick k r => on_interval k r
  | MessageCreate m => on_messageCreate m
  end.

(** The events of a process, handled in order; an uncaught error stops
    the run. *)
Definition run (inputs : list input) : M unit := for_of handle inputs.

(** *** Start-up: [constructor] and [initializeFiles] *)

(** [initializeFiles] is asynchronous: called from the constructor it runs
    up to its first [await], that is, it evaluates [this.logFile] and hands
    it to [fs.access]; the rest runs once the constructor has returned. *)
Definition initializeFiles_begin : M (option string) := gets logFile.

Definition initializeFiles_resume (probed : option string) : M unit :=
  try_catch
    (fs_access probed)
    (fun _ =>
       p <- gets logFile ;;
       fs_writeFile p "" ;;
       console_log "Log file created") ;;
  try_catch
    (p <- gets channelFile ;; fs_access p)
    (fun _ =>
       console_log
         "Channel file not found. Please use .setup command to set monitoring channel").

Definition constructor : M (option string) :=
  pending <- initializeFiles_begin ;;
  dir <- gets cwd ;;
  modify (set_logFile (Some (path_join dir "log.txt"))) ;;
  dir' <- gets cwd ;;
  modify (set_channelFile (Some (path_join dir' "channel.txt"))) ;;
  ret pending.

(** [new HackerOneDiscordBot()] followed by the continuation of
    [initializeFiles]. *)
Definition boot : M unit :=
  pending <- constructor ;;
  initializeFiles_resume pending.

(** *** Reading traces and ledgers *)

(** One ledger line per identifier. *)
Definition ledger_text (ids : list string) : string :=
  Str.concat (map (fun id => id +:+ Str.nl) ids).

(** The newline-terminated lines of a text, the way the ledger is read
    back as a list of entries. *)
Fixpoint lines_from (cur s : string) : list string :=
  match s with
  | EmptyString => []
  | String c s' =>
      if Ascii.eqb c (ascii_of_nat 10) then cur :: lines_from "" s'
      else lines_from (cur +:+ String c "") s'
  end.

Definition lines (s : string) : list string := lines_from "" s.

Definition single_line (id : string) : bool :=
  Str.all_chars (fun c => negb (Ascii.eqb c (ascii_of_nat 10))) id.

Definition report_id (n : Node) : string := databaseId (report n).

(** The items handed to [channel.send], with the outcome. *)
Definition send_attempts (t : list event) : list (Node * bool) :=
  omap (fun e => match e with
                 | ChannelSend _ n _ ok => Some (n, ok)
                 | _ => None
                 end) t.

(** The items delivered. *)
Definition sent_items (t : list event) : list Node :=
  omap (fun e => match e with
                 | ChannelSend _ n _ true => Some n
                 | _ => None
                 end) t.

(** The data of each [fs.appendFile]. *)
Definition appended (t : list event) : list string :=
  omap (fun e => match e with
                 | FileAppend _ d => Some d
                 | _ => None
                 end) t.

Definition file_writes (t : list event) : list (string * string) :=
  omap (fun e => match e with
                 | FileWrite p d => Some (p, d)
                 | FileAppend p d => Some (p, d)
                 | _ => None
                 end) t.

(** The label of each [console.error]. *)
Definition console_errors (t : list event) : list string :=
  omap (fun e => match e with
                 | ConsoleError text _ => Some text
                 | _ => None
                 end) t.

(** The target of each request to the feed. *)
Definition requests (t : list event) : list string :=
  omap (fun e => match e with
                 | HttpPost target => Some target
                 | _ => None
                 end) t.

Definition novel (log : string) (n : Node) : bool :=
  negb (Str.includes log (report_id n)).

(** What one iteration leaves in the trace when nothing fails. *)
Definition item_events (channel log path : string) (n : Node) : list event :=
  if Str.includes log (report_id n) then
    [ ConsoleLog (report_id n +:+ " skipping...") ]
  else
    match createReportEmbed n with
    | Ret e =>
        [ ChannelSend channel n e true;
          FileAppend path (report_id n +:+ Str.nl);
          Timeout 5000 ]
    | Throw _ => []
    end.

(** *** Iterations that complete *)

(** The world after the iteration for [n] has completed: a skip, or a
    delivery followed by the append and the pause. *)
Definition item_effect (channel log path : string) (n : Node) (w : World) : World :=
  if Str.includes log (report_id n) then
    emit (ConsoleLog (report_id n +:+ " skipping...")) w
  else
    match createReportEmbed n with
    | Ret e =>
        let w1 := emit (ChannelSend channel n e true) (set_sends (S (sends w)) w) in
        let line := report_id n +:+ Str.nl in
        let w2 :=
          emit (FileAppend path line)
               (set_files (<[path := default "" (files w1 !! path) +:+ line]> (files w1)) w1) in
        emit (Timeout 5000) w2
    | Throw _ => w
    end.

Definition after_items (channel log path : string) (done : list Node) (w : World) : World :=
  fold_left (fun acc n => item_effect channel log path n acc) done w.

(** Every novel item of [l] can be formatted. *)
Definition formattable (log : string) (l : list Node) : Prop :=
  forall n, n ∈ l -> novel log n = true -> exists e, createReportEmbed n = Ret e.

(** The deliveries asked for by the novel items of [l], counted from the
    state [w], all succeed. *)
Definition delivered (log : string) (l : list Node) (w : World) : Prop :=
  forall k, k < length (List.filter (novel log) l) -> deliver w (sends w + k) = true.

(** How the loop over the nodes ends, from the world [w1] reached after
    the iterations that completed, with [rest] still to do. *)
Inductive ending (channel log : string) (w1 : World) :
    list Node -> outcome unit -> World -> Prop :=
| Completed :
    ending channel log w1 [] (Ret tt) w1
| SendFailed x post e :
    novel log x = true ->
    createReportEmbed x = Ret e ->
    deliver w1 (sends w1) = false ->
    ending channel log w1 (x :: post) (Throw DiscordAPIError)
           (emit (ChannelSend channel x e false) (set_sends (S (sends w1)) w1))
| FormatFailed x post err :
    novel log x = true ->
    createReportEmbed x = Throw err ->
    ending channel log w1 (x :: post) (Throw err) w1.

(** How a cycle over [done ++ rest] stops once the iterations for [done]
    have completed, and what it leaves in the trace at the end. *)
Inductive halt (channel log : string) (w : World) (done : list Node) :
    list Node -> list event -> Prop :=
| halt_completed :
    halt channel log w done [] []
| halt_send x post e :
    novel log x = true ->
    createReportEmbed x = Ret e ->
    deliver w (sends w + length (List.filter (novel log) done)) = false ->
    halt channel log w done (x :: post)
         [ ChannelSend channel x e false;
           ConsoleError "Detailed error:" (Some DiscordAPIError) ]
| halt_format x post err :
    novel log x = true ->
    createReportEmbed x = Throw err ->
    halt channel log w done (x :: post)
         [ ConsoleError "Detailed error:" (Some err) ].

(** The fields a polling cycle never writes. *)
Definition same_config (w w' : World) : Prop :=
  cwd w' = cwd w /\ user_tag w' = user_tag w /\ cache w' = cache w /\
  deliver w' = deliver w /\ logFile w' = logFile w /\
  channelFile w' = channelFile w /\ intervals w' = intervals w.

(** *** Further readings of traces and messages *)

(** The length of each pause. *)
Definition pauses (t : list event) : list Z :=
  omap (fun e => match e with
                 | Timeout ms => Some ms
                 | _ => None
                 end) t.

(** The line start-up logs when there is no channel record. *)
Definition channel_missing : string :=
  "Channel file not found. Please use .setup command to set monitoring channel".

(** The line a skipped item leaves in the console. *)
Definition skip_line (n : Node) : event :=
  ConsoleLog (report_id n +:+ " skipping...").

(** The channel record after the chat messages [ms], from the record
    [current]: the channel of the last [.setup] an administrator sent. *)
Fixpoint last_setup (ms : list Message) (current : option string) : option string :=
  match ms with
  | [] => current
  | m :: rest =>
      last_setup rest
        (if String.eqb (content m) ".setup" && administrator m
         then Some (channel_id m) else current)
  end.

Lemma app_cons (c : ascii) (s t : string) : String c s +:+ t = String c (s +:+ t).
Proof. reflexivity. Qed.

Lemma app_empty_l (t : string) : "" +:+ t = t.
Proof. reflexivity. Qed.

Lemma app_empty_r (s : string) : s +:+ "" = s.
Proof. induction s as [|c s IH]; [done | by rewrite app_cons, IH]. Qed.

Lemma app_assoc_s (a b c : string) : (a +:+ b) +:+ c = a +:+ b +:+ c.
Proof. induction a as [|x a IH]; [done | by rewrite !app_cons, IH]. Qed.

Lemma app_inv_head_s (a b c : string) : a +:+ b = a +:+ c -> b = c.
Proof. apply String.app_inj. Qed.

Lemma concat_app (l1 l2 : list string) :
  Str.concat (l1 ++ l2) = Str.concat l1 +:+ Str.concat l2.
Proof.
  induction l1 as [|s l1 IH]; simpl; [done |].
  by rewrite IH, app_assoc_s.
Qed.

Lemma startsWith_spec (p s : string) :
  Str.startsWith p s = true <-> exists t, s = p +:+ t.
Proof.
  revert s. induction p as [|a p IH]; intros s; simpl.
  - split; [intros _; by exists s | done].
  - destruct s as [|b s].
    + split; [done | intros [t [=]]].
    + destruct (Ascii.eqb_spec a b) as [->|Hne].
      * rewrite IH. split; intros [t Ht]; exists t.
        -- by rewrite Ht.
        -- rewrite app_cons in Ht. by injection Ht.
      * split; [done | intros [t Ht]]. rewrite app_cons in Ht. by injection Ht.
Qed.

Lemma includes_spec (s p : string) :
  Str.includes s p = true <-> Str.occurs_in p s.
Proof.
  unfold Str.occurs_in. induction s as [|c s IH].
  - cbn [Str.includes]. rewrite orb_false_r, startsWith_spec. split.
    + intros [t Ht]. by exists "", t.
    + intros [pre [post H]]. destruct pre; [by exists post | done].
  - cbn [Str.includes]. rewrite orb_true_iff, startsWith_spec, IH. split.
    + intros [[t Ht] | [pre [post H]]].
      * by exists "", t.
      * exists (String c pre), post. by rewrite app_cons, H.
    + intros [pre [post H]]. destruct pre as [|x pre].
      * left. by exists post.
      * right. rewrite app_cons in H. injection H as _ H. by exists pre, post.
Qed.

Lemma includes_empty_pattern (s : string) : Str.includes s "" = true.
Proof. destruct s; reflexivity. Qed.

Lemma includes_in_empty (p : string) : Str.includes "" p = true <-> p = "".
Proof. destruct p; cbn; split; done. Qed.

Lemma includes_app_l (s t p : string) :
  Str.includes s p = true -> Str.includes (s +:+ t) p = true.
Proof.
  rewrite !includes_spec. intros [pre [post ->]].
  exists pre, (post +:+ t). by rewrite !app_assoc_s.
Qed.

Lemma includes_app_r (s t p : string) :
  Str.includes t p = true -> Str.includes (s +:+ t) p = true.
Proof.
  rewrite !includes_spec. intros [pre [post ->]].
  exists (s +:+ pre), post. by rewrite !app_assoc_s.
Qed.

(** ** The loop over the fetched nodes *)

Lemma for_of_app {A} (body : A -> M unit) (l1 l2 : list A) (w : World) :
  for_of body (l1 ++ l2) w =
  match for_of body l1 w with
  | (Ret _, w1) => for_of body l2 w1
  | (Throw e, w1) => (Throw e, w1)
  end.
Proof.
  revert w. induction l1 as [|x l1 IH]; intros w; [done |].
  simpl. unfold bind. destruct (body x w) as [[[]|e] w1]; [apply IH | done].
Qed.

Lemma report_step_skip ch log p n w :
  Str.includes log (report_id n) = true ->
  report_step ch log n w = (Ret tt, item_effect ch log p n w).
Proof.
  intros H. unfold report_step, item_effect, report_id in *. by rewrite H.
Qed.

Lemma report_step_ok ch log p n e w :
  Str.includes log (report_id n) = false ->
  createReportEmbed n = Ret e ->
  logFile w = Some p ->
  deliver w (sends w) = true ->
  report_step ch log n w = (Ret tt, item_effect ch log p n w).
Proof.
  intros H He Hp Hd. unfold report_step, item_effect, report_id in *.
  rewrite H, He. unfold bind, lift, channel_send. rewrite Hd.
  unfold gets. cbn [logFile emit set_trace set_sends]. by rewrite Hp.
Qed.

Lemma report_step_send_fail ch log n e w :
  Str.includes log (report_id n) = false ->
  createReportEmbed n = Ret e ->
  deliver w (sends w) = false ->
  report_step ch log n w =
  (Throw DiscordAPIError, emit (ChannelSend ch n e false) (set_sends (S (sends w)) w)).
Proof.
  intros H He Hd. unfold report_step, report_id in *.
  rewrite H, He. unfold bind, lift, channel_send. by rewrite Hd.
Qed.

Lemma report_step_format_fail ch log n err w :
  Str.includes log (report_id n) = false ->
  createReportEmbed n = Throw err ->
  report_step ch log n w = (Throw err, w).
Proof.
  intros H He. unfold report_step, report_id in *.
  rewrite H, He. reflexivity.
Qed.

Lemma item_effect_config ch log p n w : same_config w (item_effect ch log p n w).
Proof.
  unfold item_effect, same_config.
  destruct (Str.includes log (report_id n)); [done |].
  destruct (createReportEmbed n); done.
Qed.

Lemma same_config_refl w : same_config w w.
Proof. done. Qed.

Lemma same_config_trans w1 w2 w3 :
  same_config w1 w2 -> same_config w2 w3 -> same_config w1 w3.
Proof.
  unfold same_config.
  intros (? & ? & ? & ? & ? & ? & ?) (? & ? & ? & ? & ? & ? & ?).
  repeat split; congruence.
Qed.

Lemma after_items_config ch log p done w : same_config w (after_items ch log p done w).
Proof.
  revert w. induction done as [|n done IH]; intros w; [done |].
  eapply same_config_trans; [apply (item_effect_config ch log p n) | apply IH].
Qed.

Lemma item_effect_sends ch log p n w :
  sends (item_effect ch log p n w) =
  match createReportEmbed n with
  | Ret _ => if novel log n then S (sends w) else sends w
  | Throw _ => sends w
  end.
Proof.
  unfold item_effect, novel.
  destruct (Str.includes log (report_id n)); destruct (createReportEmbed n); done.
Qed.

Lemma formattable_cons log n l :
  formattable log (n :: l) ->
  (novel log n = true -> exists e, createReportEmbed n = Ret e) /\ formattable log l.
Proof.
  intros H. split.
  - apply H. left.
  - intros m Hm. apply H. by right.
Qed.

Lemma formattable_app log l1 l2 :
  formattable log (l1 ++ l2) <-> formattable log l1 /\ formattable log l2.
Proof.
  unfold formattable. split.
  - intros H. split; intros n Hn; apply H; apply elem_of_app; auto.
  - intros [H1 H2] n [Hn|Hn]%elem_of_app; auto.
Qed.

Lemma delivered_cons_skip log n l w w1 :
  novel log n = false ->
  deliver w1 = deliver w -> sends w1 = sends w ->
  delivered log (n :: l) w <-> delivered log l w1.
Proof.
  intros Hn Hd Hs. unfold delivered. simpl. by rewrite Hn, Hd, Hs.
Qed.

Lemma delivered_cons_novel log n l w w1 :
  novel log n = true ->
  deliver w1 = deliver w -> sends w1 = S (sends w) ->
  delivered log (n :: l) w <-> deliver w (sends w) = true /\ delivered log l w1.
Proof.
  intros Hn Hd Hs. unfold delivered. cbn [List.filter]. rewrite Hn, Hd, Hs.
  cbn [length]. split.
  - intros H. split.
    + rewrite <- (Nat.add_0_r (sends w)). apply H. lia.
    + intros k Hk. rewrite Nat.add_succ_l, <- Nat.add_succ_r. apply H. lia.
  - intros [H0 H] [|k] Hk.
    + by rewrite Nat.add_0_r.
    + rewrite Nat.add_succ_r, <- Nat.add_succ_l. apply H. lia.
Qed.

Lemma for_of_report_step_ok ch log p l w :
  logFile w = Some p ->
  formattable log l ->
  delivered log l w ->
  for_of (report_step ch log) l w = (Ret tt, after_items ch log p l w).
Proof.
  revert w. induction l as [|n l IH]; intros w Hp Hf Hd; [done |].
  apply formattable_cons in Hf as [Hn Hf].
  destruct (item_effect_config ch log p n w) as (_ & _ & _ & Hcd & Hl & _).
  pose proof (item_effect_sends ch log p n w) as Hs.
  rewrite Hp in Hl.
  simpl. unfold bind.
  destruct (novel log n) eqn:Hnov.
  - destruct (Hn eq_refl) as [e He]. rewrite He in Hs.
    apply (delivered_cons_novel log n l w _ Hnov Hcd Hs) in Hd as [Hd0 Hd].
    unfold novel in Hnov. apply negb_true_iff in Hnov.
    rewrite (report_step_ok ch log p n e w) by done.
    by apply IH.
  - assert (sends (item_effect ch log p n w) = sends w) as Hs'.
    { rewrite Hs. by destruct (createReportEmbed n). }
    apply (delivered_cons_skip log n l w _ Hnov Hcd Hs') in Hd.
    unfold novel in Hnov. apply negb_false_iff in Hnov.
    rewrite (report_step_skip ch log p n w) by done.
    by apply IH.
Qed.

Lemma formattable_nil log : formattable log [].
Proof. intros n Hn. by apply elem_of_nil in Hn. Qed.

Lemma delivered_nil log w : delivered log [] w.
Proof. intros k Hk. simpl in Hk. lia. Qed.

Lemma for_of_report_step_inv ch log p nodes w o w' :
  logFile w = Some p ->
  for_of (report_step ch log) nodes w = (o, w') ->
  exists done rest,
    nodes = done ++ rest /\
    formattable log done /\
    delivered log done w /\
    ending ch log (after_items ch log p done w) rest o w'.
Proof.
  revert w. induction nodes as [|n nodes IH]; intros w Hp Hrun.
  - injection Hrun as <- <-. exists [], [].
    split; [done |]. split; [apply formattable_nil |].
    split; [apply delivered_nil | constructor].
  - destruct (item_effect_config ch log p n w) as (_ & _ & _ & Hcd & Hl & _).
    pose proof (item_effect_sends ch log p n w) as Hs.
    rewrite Hp in Hl.
    simpl in Hrun. unfold bind in Hrun.
    destruct (Str.includes log (report_id n)) eqn:Hinc.
    + rewrite (report_step_skip ch log p n w) in Hrun by done.
      destruct (IH _ Hl Hrun) as (done & rest & -> & Hf & Hd & He).
      assert (novel log n = false) as Hnov by (unfold novel; by rewrite Hinc).
      exists (n :: done), rest.
      split; [done |]. split; [| split; [| done]].
      * intros m [->|Hm]%elem_of_cons; [by rewrite Hnov | by apply Hf].
      * apply (delivered_cons_skip log n done w _ Hnov Hcd); [| done].
        rewrite Hs, Hnov. by destruct (createReportEmbed n).
    + assert (novel log n = true) as Hnov by (unfold novel; by rewrite Hinc).
      destruct (createReportEmbed n) as [e|err] eqn:He.
      * destruct (deliver w (sends w)) eqn:Hd0.
        -- rewrite (report_step_ok ch log p n e w) in Hrun by done.
           destruct (IH _ Hl Hrun) as (done & rest & -> & Hf & Hd & Hend).
           exists (n :: done), rest.
           split; [done |]. split; [| split; [| done]].
           ++ intros m [->|Hm]%elem_of_cons; [by exists e | by apply Hf].
           ++ apply (delivered_cons_novel log n done w _ Hnov Hcd); [| done].
              by rewrite Hs, Hnov.
        -- rewrite (report_step_send_fail ch log n e w) in Hrun by done.
           injection Hrun as <- <-. exists [], (n :: nodes).
           split; [done |]. split; [apply formattable_nil |].
           split; [apply delivered_nil | by apply SendFailed].
      * rewrite (report_step_format_fail ch log n err w) in Hrun by done.
        injection Hrun as <- <-. exists [], (n :: nodes).
        split; [done |]. split; [apply formattable_nil |].
        split; [apply delivered_nil | by apply FormatFailed].
Qed.

(** ** The world after completed iterations *)

Lemma after_items_app ch log p l1 l2 w :
  after_items ch log p (l1 ++ l2) w =
  after_items ch log p l2 (after_items ch log p l1 w).
Proof. apply fold_left_app. Qed.

Lemma item_effect_trace ch log p n w :
  trace (item_effect ch log p n w) = trace w ++ item_events ch log p n.
Proof.
  unfold item_effect, item_events.
  destruct (Str.includes log (report_id n)); [done |].
  destruct (createReportEmbed n); cbn.
  - by rewrite <- !app_assoc.
  - by rewrite app_nil_r.
Qed.

Lemma after_items_trace ch log p done w :
  trace (after_items ch log p done w) =
  trace w ++ flat_map (item_events ch log p) done.
Proof.
  revert w. induction done as [|n done IH]; intros w; simpl.
  - by rewrite app_nil_r.
  - change (trace (after_items ch log p done (item_effect ch log p n w)) =
            trace w ++ item_events ch log p n ++ flat_map (item_events ch log p) done).
    by rewrite IH, item_effect_trace, <- app_assoc.
Qed.

Lemma after_items_sends ch log p done w :
  formattable log done ->
  sends (after_items ch log p done w) = sends w + length (List.filter (novel log) done).
Proof.
  revert w. induction done as [|n done IH]; intros w Hf; simpl; [lia |].
  apply formattable_cons in Hf as [Hn Hf].
  change (sends (after_items ch log p done (item_effect ch log p n w)) =
          sends w + length (if novel log n then n :: List.filter (novel log) done
                            else List.filter (novel log) done)).
  rewrite IH, item_effect_sends by done.
  destruct (novel log n).
  - destruct (Hn eq_refl) as [e ->]. simpl. lia.
  - by destruct (createReportEmbed n).
Qed.

Lemma ledger_text_app l1 l2 :
  ledger_text (l1 ++ l2) = ledger_text l1 +:+ ledger_text l2.
Proof. unfold ledger_text. by rewrite map_app, concat_app. Qed.

Lemma ledger_text_cons id l :
  ledger_text (id :: l) = id +:+ Str.nl +:+ ledger_text l.
Proof. unfold ledger_text. simpl. by rewrite app_assoc_s. Qed.

Lemma lines_from_entry cur id rest :
  single_line id = true ->
  lines_from cur (id +:+ Str.nl +:+ rest) = (cur +:+ id) :: lines_from "" rest.
Proof.
  revert cur. induction id as [|c id IH]; intros cur Hid.
  - by rewrite app_empty_r.
  - unfold single_line in Hid. cbn [Str.all_chars] in Hid.
    apply andb_true_iff in Hid as [Hc Hid]. apply negb_true_iff in Hc.
    rewrite app_cons. cbn [lines_from]. rewrite Hc, (IH _ Hid).
    by rewrite app_assoc_s.
Qed.

(** A ledger written from single-line identifiers reads back as the list
    of those identifiers. *)
Lemma lines_ledger_text ids :
  Forall (fun id => single_line id = true) ids -> lines (ledger_text ids) = ids.
Proof.
  unfold lines. induction 1 as [|id ids Hid _ IH]; [done |].
  by rewrite ledger_text_cons, (lines_from_entry "" id _ Hid), IH.
Qed.

Lemma item_effect_files ch log p n w old :
  files w !! p = Some old ->
  (novel log n = true -> exists e, createReportEmbed n = Ret e) ->
  files (item_effect ch log p n w) !! p =
  Some (old +:+ (if novel log n then report_id n +:+ Str.nl else "")).
Proof.
  intros Hold Hn. unfold item_effect, novel in *.
  destruct (Str.includes log (report_id n)); simpl.
  - by rewrite app_empty_r.
  - destruct (Hn eq_refl) as [e ->]. cbn. rewrite lookup_insert_eq.
    by rewrite Hold.
Qed.

Lemma item_effect_other_files ch log p n w q :
  q <> p -> files (item_effect ch log p n w) !! q = files w !! q.
Proof.
  intros Hq. unfold item_effect.
  destruct (Str.includes log (report_id n)); [done |].
  destruct (createReportEmbed n); [| done].
  cbn. by rewrite lookup_insert_ne.
Qed.

Lemma after_items_files ch log p done w old :
  files w !! p = Some old ->
  formattable log done ->
  files (after_items ch log p done w) !! p =
  Some (old +:+ ledger_text (map report_id (List.filter (novel log) done))).
Proof.
  revert w old. induction done as [|n done IH]; intros w old Hold Hf.
  - simpl. by rewrite app_empty_r.
  - apply formattable_cons in Hf as [Hn Hf].
    change (after_items ch log p (n :: done) w)
      with (after_items ch log p done (item_effect ch log p n w)).
    rewrite (IH _ _ (item_effect_files ch log p n w old Hold Hn) Hf).
    cbn [List.filter]. destruct (novel log n).
    + cbn [map]. by rewrite ledger_text_cons, !app_assoc_s.
    + by rewrite app_empty_r.
Qed.

Lemma after_items_other_files ch log p done w q :
  q <> p -> files (after_items ch log p done w) !! q = files w !! q.
Proof.
  intros Hq. revert w. induction done as [|n done IH]; intros w; [done |].
  change (after_items ch log p (n :: done) w)
    with (after_items ch log p done (item_effect ch log p n w)).
  by rewrite IH, item_effect_other_files.
Qed.

(** ** Reading the events of completed iterations *)

Lemma send_attempts_app t1 t2 :
  send_attempts (t1 ++ t2) = send_attempts t1 ++ send_attempts t2.
Proof. apply omap_app. Qed.

Lemma sent_items_app t1 t2 : sent_items (t1 ++ t2) = sent_items t1 ++ sent_items t2.
Proof. apply omap_app. Qed.

Lemma appended_app t1 t2 : appended (t1 ++ t2) = appended t1 ++ appended t2.
Proof. apply omap_app. Qed.

Lemma send_attempts_items ch log p done :
  formattable log done ->
  send_attempts (flat_map (item_events ch log p) done) =
  map (fun n => (n, true)) (List.filter (novel log) done).
Proof.
  induction done as [|n done IH]; intros Hf; [done |].
  apply formattable_cons in Hf as [Hn Hf].
  cbn [flat_map List.filter]. rewrite send_attempts_app, IH by done.
  unfold item_events, novel in *.
  destruct (Str.includes log (report_id n)); [done |].
  by destruct (Hn eq_refl) as [e ->].
Qed.

Lemma sent_items_items ch log p done :
  formattable log done ->
  sent_items (flat_map (item_events ch log p) done) = List.filter (novel log) done.
Proof.
  induction done as [|n done IH]; intros Hf; [done |].
  apply formattable_cons in Hf as [Hn Hf].
  cbn [flat_map List.filter]. rewrite sent_items_app, IH by done.
  unfold item_events, novel in *.
  destruct (Str.includes log (report_id n)); [done |].
  by destruct (Hn eq_refl) as [e ->].
Qed.

Lemma appended_items ch log p done :
  formattable log done ->
  appended (flat_map (item_events ch log p) done) =
  map (fun n => report_id n +:+ Str.nl) (List.filter (novel log) done).
Proof.
  induction done as [|n done IH]; intros Hf; [done |].
  apply formattable_cons in Hf as [Hn Hf].
  cbn [flat_map List.filter]. rewrite appended_app, IH by done.
  unfold item_events, novel in *.
  destruct (Str.includes log (report_id n)); [done |].
  by destruct (Hn eq_refl) as [e ->].
Qed.

(** ** One polling cycle *)

Lemma cycle_rejected ch w :
  checkHacktivityReports ch Rejected w =
  (Ret tt, emit (ConsoleError "Detailed error:" (Some AxiosError)) (emit (HttpPost feed) w)).
Proof. reflexivity. Qed.

Lemma cycle_no_nodes ch w p log :
  logFile w = Some p -> files w !! p = Some log ->
  checkHacktivityReports ch NoNodes w =
  (Ret tt, emit (ConsoleError "Detailed error:" (Some no_nodes)) (emit (HttpPost feed) w)).
Proof.
  intros Hp Hlog. unfold checkHacktivityReports, try_catch, bind, axios_post, modify, ret, gets.
  cbn. rewrite Hp. cbn. unfold bind, gets. cbn. by rewrite Hlog.
Qed.

Lemma cycle_no_ledger ch r w p :
  r <> Rejected ->
  logFile w = Some p -> files w !! p = None ->
  checkHacktivityReports ch r w =
  (Ret tt, emit (ConsoleError "Detailed error:" (Some (ENOENT p))) (emit (HttpPost feed) w)).
Proof.
  intros Hr Hp Hlog.
  unfold checkHacktivityReports, try_catch, bind, axios_post, modify, ret, gets.
  destruct r; [done | |]; cbn; rewrite Hp; cbn; unfold bind, gets; cbn; by rewrite Hlog.
Qed.

Lemma cycle_no_path ch r w :
  r <> Rejected ->
  logFile w = None ->
  checkHacktivityReports ch r w =
  (Ret tt, emit (ConsoleError "Detailed error:" (Some invalid_path)) (emit (HttpPost feed) w)).
Proof.
  intros Hr Hp.
  unfold checkHacktivityReports, try_catch, bind, axios_post, modify, ret, gets.
  destruct r; [done | |]; cbn; by rewrite Hp.
Qed.

Lemma cycle_nodes ch nodes w p log :
  logFile w = Some p -> files w !! p = Some log ->
  checkHacktivityReports ch (Nodes nodes) w =
  match for_of (report_step ch log) nodes (emit (HttpPost feed) w) with
  | (Ret _, w') => (Ret tt, w')
  | (Throw e, w') => (Ret tt, emit (ConsoleError "Detailed error:" (Some e)) w')
  end.
Proof.
  intros Hp Hlog. unfold checkHacktivityReports, try_catch, bind, axios_post, modify, ret, gets.
  cbn. rewrite Hp. cbn. unfold bind, gets. cbn. rewrite Hlog. cbn.
  by destruct (for_of _ _ _) as [[[]|e] w'].
Qed.

(** A cycle never throws. *)
Lemma cycle_returns ch r w : (checkHacktivityReports ch r w).1 = Ret tt.
Proof.
  unfold checkHacktivityReports, try_catch.
  destruct (bind _ _ w) as [[[]|e] w']; reflexivity.
Qed.

Lemma emit_config e w : same_config w (emit e w).
Proof. done. Qed.

Lemma trace_emit e w : trace (emit e w) = trace w ++ [e].
Proof. reflexivity. Qed.

Lemma novel_empty_ledger n : report_id n <> "" -> novel "" n = true.
Proof.
  intros Hn. unfold novel. apply negb_true_iff, not_true_iff_false.
  by rewrite includes_in_empty.
Qed.

Lemma filter_all {A} (f : A -> bool) (l : list A) :
  (forall x, x ∈ l -> f x = true) -> List.filter f l = l.
Proof.
  induction l as [|x l IH]; intros H; [done |].
  simpl. rewrite (H x) by left. f_equal. apply IH. intros y Hy. apply H. by right.
Qed.

Lemma item_events_dispatch ch log p n e :
  novel log n = true ->
  createReportEmbed n = Ret e ->
  item_events ch log p n =
  [ ChannelSend ch n e true; FileAppend p (report_id n +:+ Str.nl); Timeout 5000 ].
Proof.
  unfold novel, item_events. intros Hn ->.
  by destruct (Str.includes log (report_id n)).
Qed.

Lemma item_events_skip ch log p n :
  novel log n = false ->
  item_events ch log p n = [ ConsoleLog (report_id n +:+ " skipping...") ].
Proof.
  unfold novel, item_events. intros Hn.
  by destruct (Str.includes log (report_id n)).
Qed.

(** The cycle whose iterations all complete. *)
Lemma cycle_completes ch nodes w p log :
  logFile w = Some p -> files w !! p = Some log ->
  formattable log nodes ->
  delivered log nodes w ->
  exists w',
    checkHacktivityReports ch (Nodes nodes) w = (Ret tt, w') /\
    same_config w w' /\
    trace w' = trace w ++ HttpPost feed :: flat_map (item_events ch log p) nodes /\
    files w' !! p =
      Some (log +:+ ledger_text (map report_id (List.filter (novel log) nodes))) /\
    (forall q, q <> p -> files w' !! q = files w !! q) /\
    sends w' = sends w + length (List.filter (novel log) nodes).
Proof.
  intros Hp Hlog Hf Hd.
  exists (after_items ch log p nodes (emit (HttpPost feed) w)).
  rewrite (cycle_nodes ch nodes w p log Hp Hlog).
  rewrite (for_of_report_step_ok ch log p nodes (emit (HttpPost feed) w)) by done.
  split; [done |]. split; [| split; [| split; [| split]]].
  - eapply same_config_trans; [apply (emit_config (HttpPost feed)) | apply after_items_config].
  - rewrite after_items_trace. cbn. by rewrite <- app_assoc.
  - by apply after_items_files.
  - intros q Hq. by rewrite after_items_other_files.
  - by rewrite after_items_sends.
Qed.

(** Every cycle that can read the ledger and gets nodes from the feed
    completes some iterations and then stops in one of three ways. *)
Lemma cycle_shape ch nodes w p log o w' :
  logFile w = Some p -> files w !! p = Some log ->
  checkHacktivityReports ch (Nodes nodes) w = (o, w') ->
  o = Ret tt /\
  exists done rest tail,
    nodes = done ++ rest /\
    formattable log done /\
    delivered log done w /\
    halt ch log w done rest tail /\
    trace w' = trace w ++ HttpPost feed :: flat_map (item_events ch log p) done ++ tail /\
    same_config w w' /\
    files w' !! p =
      Some (log +:+ ledger_text (map report_id (List.filter (novel log) done))) /\
    (forall q, q <> p -> files w' !! q = files w !! q).
Proof.
  intros Hp Hlog Hrun. rewrite (cycle_nodes ch nodes w p log Hp Hlog) in Hrun.
  set (w0 := emit (HttpPost feed) w) in *.
  destruct (for_of (report_step ch log) nodes w0) as [o1 w1'] eqn:Hloop.
  destruct (for_of_report_step_inv ch log p nodes w0 o1 w1' Hp Hloop)
    as (done & rest & Hnodes & Hf & Hd & Hend).
  assert (same_config w (after_items ch log p done w0)) as Hc.
  { eapply same_config_trans; [apply (emit_config (HttpPost feed)) | apply after_items_config]. }
  assert (trace (after_items ch log p done w0) =
          trace w ++ HttpPost feed :: flat_map (item_events ch log p) done) as Ht.
  { rewrite after_items_trace. subst w0. cbn. by rewrite <- app_assoc. }
  pose proof (after_items_files ch log p done w0 log Hlog Hf) as Hfiles.
  pose proof (after_items_other_files ch log p done w0) as Hother.
  pose proof (after_items_sends ch log p done w0 Hf) as Hsends.
  destruct Hc as (Hc1 & Hc2 & Hc3 & Hc4 & Hc5 & Hc6 & Hc7).
  inversion Hend as [Hr Ho Hw | x post e Hx He Hdl Hr Ho Hw | x post err Hx He Hr Ho Hw];
    subst o1 w1' rest; injection Hrun as <- <-; (split; [done |]).
  - exists done, [], [].
    split; [done |]. split; [done |]. split; [done |]. split; [constructor |].
    by rewrite app_nil_r.
  - exists done, (x :: post),
      [ ChannelSend ch x e false; ConsoleError "Detailed error:" (Some DiscordAPIError) ].
    split; [done |]. split; [done |]. split; [done |]. split.
    { apply halt_send; [done | done |]. rewrite Hc4, Hsends in Hdl. exact Hdl. }
    split. { cbn. rewrite Ht. by rewrite <- !app_assoc. }
    done.
  - exists done, (x :: post), [ ConsoleError "Detailed error:" (Some err) ].
    split; [done |]. split; [done |]. split; [done |]. split.
    { by apply halt_format. }
    split. { cbn. rewrite Ht. by rewrite <- !app_assoc. }
    done.
Qed.

Lemma filter_app_bool {A} (f : A -> bool) (l1 l2 : list A) :
  List.filter f (l1 ++ l2) = List.filter f l1 ++ List.filter f l2.
Proof. apply List.filter_app. Qed.

Lemma elem_of_filter_bool {A} (f : A -> bool) (l : list A) (x : A) :
  x ∈ List.filter f l <-> x ∈ l /\ f x = true.
Proof. rewrite !list_elem_of_In. apply List.filter_In. Qed.

(** What any cycle that reads the ledger text [log] leaves behind, whatever
    the feed answers and whichever deliveries fail. *)
Lemma cycle_reads ch r w p log o w' :
  logFile w = Some p -> files w !! p = Some log ->
  checkHacktivityReports ch r w = (o, w') ->
  o = Ret tt /\
  exists evs,
    trace w' = trace w ++ evs /\
    same_config w w' /\
    files w' !! p = Some (log +:+ ledger_text (map report_id (sent_items evs))) /\
    (forall q, q <> p -> files w' !! q = files w !! q) /\
    appended evs = map (fun n => report_id n +:+ Str.nl) (sent_items evs) /\
    (forall nodes, r = Nodes nodes ->
       map fst (send_attempts evs) `prefix_of` List.filter (novel log) nodes /\
       sent_items evs `prefix_of` map fst (send_attempts evs)) /\
    ((forall nodes, r <> Nodes nodes) -> send_attempts evs = []).
Proof.
  intros Hp Hlog Hrun. destruct r as [| |nodes].
  - rewrite cycle_rejected in Hrun. injection Hrun as <- <-. split; [done |].
    eexists [_; _]. split; [cbn; by rewrite <- app_assoc |].
    cbn. rewrite app_empty_r. repeat split; try done; auto.
  - rewrite (cycle_no_nodes ch w p log Hp Hlog) in Hrun. injection Hrun as <- <-.
    split; [done |].
    eexists [_; _]. split; [cbn; by rewrite <- app_assoc |].
    cbn. rewrite app_empty_r. repeat split; try done; auto.
  - destruct (cycle_shape ch nodes w p log o w' Hp Hlog Hrun)
      as (-> & done & rest & tail & -> & Hf & Hd & Hhalt & Ht & Hc & Hfiles & Hother).
    split; [done |].
    exists (HttpPost feed :: flat_map (item_events ch log p) done ++ tail).
    assert (sent_items tail = [] /\ appended tail = [] /\
            map fst (send_attempts (flat_map (item_events ch log p) done ++ tail))
              `prefix_of` List.filter (novel log) (done ++ rest)) as (Hs & Ha & Hpre).
    { rewrite send_attempts_app, (send_attempts_items ch log p done Hf), map_app, map_map.
      cbn [fst]. rewrite map_id, filter_app_bool.
      destruct Hhalt as [| x post e Hx He Hdl | x post err Hx He]; cbn.
      - split; [done |]. split; [done |]. reflexivity.
      - split; [done |]. split; [done |]. rewrite Hx.
        exists (List.filter (novel log) post). by rewrite <- app_assoc.
      - split; [done |]. split; [done |]. rewrite app_nil_r. by eexists. }
    split; [done |]. split; [done |].
    change (sent_items (HttpPost feed :: ?l)) with (sent_items l).
    change (appended (HttpPost feed :: ?l)) with (appended l).
    change (send_attempts (HttpPost feed :: ?l)) with (send_attempts l).
    rewrite sent_items_app, appended_app, Hs, Ha, !app_nil_r.
    rewrite (sent_items_items ch log p done Hf), (appended_items ch log p done Hf).
    split; [done |]. split; [done |]. split; [done |]. split.
    + intros nodes [= <-]. split; [done |].
      rewrite send_attempts_app, (send_attempts_items ch log p done Hf), map_app, map_map.
      cbn [fst]. rewrite map_id. by eexists.
    + intros Hr. by destruct (Hr (done ++ rest)).
Qed.

(** ** Identifiers recorded in the ledger *)

Lemma recorded_included entries id :
  id ∈ entries -> Str.includes (ledger_text entries) id = true.
Proof.
  intros (l1 & l2 & ->)%list_elem_of_split. apply includes_spec.
  exists (ledger_text l1), (Str.nl +:+ ledger_text l2).
  by rewrite ledger_text_app, ledger_text_cons.
Qed.


Lemma attempts_novel ch nodes w p log o w' evs n ok :
  logFile w = Some p -> files w !! p = Some log ->
  checkHacktivityReports ch (Nodes nodes) w = (o, w') ->
  trace w' = trace w ++ evs ->
  (n, ok) ∈ send_attempts evs ->
  n ∈ nodes /\ novel log n = true.
Proof.
  intros Hp Hlog Hrun Ht Hin.
  destruct (cycle_reads ch _ w p log o w' Hp Hlog Hrun)
    as (_ & evs' & Ht' & _ & _ & _ & _ & Hpre & _).
  rewrite Ht in Ht'. apply app_inv_head in Ht' as <-.
  destruct (Hpre nodes eq_refl) as [[k Hk] _].
  apply (elem_of_filter_bool (novel log) nodes n). rewrite Hk.
  apply elem_of_app. left.
  apply list_elem_of_fmap. by exists (n, ok).
Qed.

Lemma sent_items_attempted t n : n ∈ sent_items t -> (n, true) ∈ send_attempts t.
Proof.
  unfold sent_items, send_attempts. rewrite !list_elem_of_omap.
  intros (e & He & Hn). exists e. split; [done |].
  destruct e as [| | |c m pl [|]| | | |]; by simplify_eq.
Qed.

(** ** Dispatch from an empty ledger *)

(** C3 (amended).  When the ledger is empty and the cycle fetches a batch
    whose identifiers are all non-empty, and every item formats and is
    delivered, the cycle sends one notification per item in the fetched
    order; each delivery is followed by the append of that item's
    identifier and the pause, before the next item is looked at; the
    ledger afterwards holds exactly the identifiers of the batch, in
    dispatch order. *)
Theorem empty_ledger_dispatch ch nodes w p :
  logFile w = Some p ->
  files w !! p = Some "" ->
  (forall n, n ∈ nodes -> report_id n <> "") ->
  (forall n, n ∈ nodes -> exists e, createReportEmbed n = Ret e) ->
  (forall k, k < length nodes -> deliver w (sends w + k) = true) ->
  exists w',
    checkHacktivityReports ch (Nodes nodes) w = (Ret tt, w') /\
    trace w' = trace w ++ HttpPost feed :: flat_map (item_events ch "" p) nodes /\
    (forall n, n ∈ nodes ->
       exists e, createReportEmbed n = Ret e /\
         item_events ch "" p n =
         [ ChannelSend ch n e true;
           FileAppend p (report_id n +:+ Str.nl);
           Timeout 5000 ]) /\
    send_attempts (flat_map (item_events ch "" p) nodes) =
      map (fun n => (n, true)) nodes /\
    files w' !! p = Some (ledger_text (map report_id nodes)).
Proof.
  intros Hp Hlog Hid Hfmt Hdel.
  assert (List.filter (novel "") nodes = nodes) as Hall.
  { apply filter_all. intros n Hn. by apply novel_empty_ledger, Hid. }
  assert (formattable "" nodes) as Hf.
  { intros n Hn _. by apply Hfmt. }
  assert (delivered "" nodes w) as Hd.
  { intros k Hk. apply Hdel. by rewrite Hall in Hk. }
  destruct (cycle_completes ch nodes w p "" Hp Hlog Hf Hd)
    as (w' & Hrun & _ & Ht & Hfiles & _ & _).
  exists w'. split; [done |]. split; [done |]. split; [| split].
  - intros n Hn. destruct (Hfmt n Hn) as [e He]. exists e. split; [done |].
    apply item_events_dispatch; [| done]. by apply novel_empty_ledger, Hid.
  - by rewrite (send_attempts_items ch "" p nodes Hf), Hall.
  - by rewrite Hfiles, Hall.
Qed.

(** ** Items already recorded *)


(** ** Membership is containment in the ledger text *)

(** C10.  The membership test is containment in the ledger text.  An
    item whose identifier occurs anywhere in the text is skipped: its
    iteration only logs the skip, and in a cycle over that ledger no
    delivery is attempted for it and nothing is appended for it, whether
    or not the identifier is a line of the ledger.  An item whose
    identifier does not occur in the text is handed to [channel.send]. *)
Theorem membership_is_containment ch log n :
  (Str.includes log (report_id n) = true <-> Str.occurs_in (report_id n) log) /\
  (Str.occurs_in (report_id n) log ->
     (forall w,
        report_step ch log n w =
        (Ret tt, emit (ConsoleLog (report_id n +:+ " skipping...")) w)) /\
     (forall nodes w p o w',
        logFile w = Some p ->
        files w !! p = Some log ->
        checkHacktivityReports ch (Nodes nodes) w = (o, w') ->
        exists evs,
          trace w' = trace w ++ evs /\
          (forall ok, (n, ok) ∉ send_attempts evs) /\
          (forall m, m ∈ sent_items evs -> report_id m <> report_id n) /\
          appended evs = map (fun m => report_id m +:+ Str.nl) (sent_items evs))) /\
  (~ Str.occurs_in (report_id n) log ->
     forall w e,
       createReportEmbed n = Ret e ->
       exists o w' more,
         report_step ch log n w = (o, w') /\
         trace w' = trace w ++ ChannelSend ch n e (deliver w (sends w)) :: more).
Proof.
  split; [apply includes_spec |]. split.
  - intros Hocc. apply includes_spec in Hocc. split.
    + intros w. unfold report_step. fold (report_id n). by rewrite Hocc.
    + intros nodes w p o w' Hp Hlog Hrun.
      destruct (cycle_reads ch _ w p _ o w' Hp Hlog Hrun)
        as (_ & evs & Ht & _ & _ & _ & Happ & _ & _).
      exists evs. split; [done |]. split; [| split; [| done]].
      * intros ok Hin.
        destruct (attempts_novel ch nodes w p _ o w' evs n ok Hp Hlog Hrun Ht Hin)
          as [_ Hn].
        unfold novel in Hn. by rewrite Hocc in Hn.
      * intros m Hm Heq. apply sent_items_attempted in Hm.
        destruct (attempts_novel ch nodes w p _ o w' evs m true Hp Hlog Hrun Ht Hm)
          as [_ Hn].
        unfold novel in Hn. by rewrite Heq, Hocc in Hn.
  - intros Hocc w e He.
    assert (Str.includes log (report_id n) = false) as Hinc.
    { apply not_true_iff_false. by rewrite includes_spec. }
    destruct (deliver w (sends w)) eqn:Hd.
    + destruct (logFile w) as [p|] eqn:Hp.
      * rewrite (report_step_ok ch log p n e w) by done.
        eexists _, _, _. split; [reflexivity |].
        rewrite item_effect_trace, (item_events_dispatch ch log p n e); [done | | done].
        unfold novel. by rewrite Hinc.
      * unfold report_step. fold (report_id n). rewrite Hinc, He.
        unfold bind, lift, channel_send, gets. rewrite Hd. cbn. rewrite Hp.
        eexists _, _, []. split; reflexivity.
    + rewrite (report_step_send_fail ch log n e w) by done.
      eexists _, _, []. split; reflexivity.
Qed.

(** ** A delivery that fails *)

Lemma for_of_trace_extends ch log p nodes w o w' :
  logFile w = Some p ->
  for_of (report_step ch log) nodes w = (o, w') ->
  exists evs, trace w' = trace w ++ evs.
Proof.
  intros Hp Hrun.
  destruct (for_of_report_step_inv ch log p nodes w o w' Hp Hrun)
    as (done & rest & _ & _ & _ & Hend).
  pose proof (after_items_trace ch log p done w) as Ht.
  inversion Hend; subst.
  - by eexists.
  - eexists. cbn. by rewrite Ht, <- app_assoc.
  - by eexists.
Qed.

Lemma flat_map_skips ch log p l :
  (forall n, n ∈ l -> novel log n = false) ->
  flat_map (item_events ch log p) l =
  map (fun n => ConsoleLog (report_id n +:+ " skipping...")) l.
Proof.
  induction l as [|n l IH]; intros H; [done |].
  cbn [flat_map map]. rewrite (item_events_skip ch log p n) by (apply H; left).
  rewrite IH; [done |]. intros m Hm. apply H. by right.
Qed.

Lemma filter_none {A} (f : A -> bool) (l : list A) :
  (forall x, x ∈ l -> f x = false) -> List.filter f l = [].
Proof.
  induction l as [|x l IH]; intros H; [done |].
  simpl. rewrite (H x) by left. apply IH. intros y Hy. apply H. by right.
Qed.

(** Once a cycle has stopped after the items [pre], each of them is
    contained in the new ledger text. *)
Lemma processed_not_novel log pre n :
  n ∈ pre ->
  novel (log +:+ ledger_text (map report_id (List.filter (novel log) pre))) n = false.
Proof.
  intros Hn. unfold novel at 1. apply negb_false_iff.
  destruct (novel log n) eqn:Hnov.
  - apply includes_app_r, recorded_included, list_elem_of_fmap.
    exists n. split; [done |]. by apply elem_of_filter_bool.
  - apply includes_app_l. unfold novel in Hnov. by apply negb_false_iff in Hnov.
Qed.

(** C1 (amended).  When the delivery of a novel item fails, the cycle
    stops there: the failure is logged, no later item of the batch is
    attempted in that cycle and nothing is appended for the failed item,
    so the ledger gains exactly the identifiers delivered before it.  The
    next cycle that fetches the same batch skips the items before the
    failed one and attempts the failed item again, provided its identifier
    does not occur in the ledger text by then. *)
Theorem send_failure_stops_cycle ch pre x post w p log e :
  logFile w = Some p ->
  files w !! p = Some log ->
  formattable log pre ->
  delivered log pre w ->
  novel log x = true ->
  createReportEmbed x = Ret e ->
  deliver w (sends w + length (List.filter (novel log) pre)) = false ->
  exists w',
    checkHacktivityReports ch (Nodes (pre ++ x :: post)) w = (Ret tt, w') /\
    trace w' =
      trace w ++ HttpPost feed :: flat_map (item_events ch log p) pre ++
      [ ChannelSend ch x e false;
        ConsoleError "Detailed error:" (Some DiscordAPIError) ] /\
    files w' !! p =
      Some (log +:+ ledger_text (map report_id (List.filter (novel log) pre))) /\
    (Str.includes (log +:+ ledger_text (map report_id (List.filter (novel log) pre)))
                  (report_id x) = false ->
     forall o2 w2,
       checkHacktivityReports ch (Nodes (pre ++ x :: post)) w' = (o2, w2) ->
       exists ok more,
         trace w2 =
           trace w' ++ HttpPost feed ::
           map (fun n => ConsoleLog (report_id n +:+ " skipping...")) pre ++
           ChannelSend ch x e ok :: more).
Proof.
  intros Hp Hlog Hf Hd Hx He Hfail.
  set (w0 := emit (HttpPost feed) w).
  set (w1 := after_items ch log p pre w0).
  set (w' := emit (ConsoleError "Detailed error:" (Some DiscordAPIError))
               (emit (ChannelSend ch x e false) (set_sends (S (sends w1)) w1))).
  destruct (after_items_config ch log p pre w0) as (_ & _ & _ & Hdel & Hlf & _).
  assert (Hinc : Str.includes log (report_id x) = false).
  { unfold novel in Hx. by apply negb_true_iff in Hx. }
  assert (Hrun : checkHacktivityReports ch (Nodes (pre ++ x :: post)) w = (Ret tt, w')).
  { rewrite (cycle_nodes ch _ w p log Hp Hlog), for_of_app.
    fold w0. rewrite (for_of_report_step_ok ch log p pre w0) by done. fold w1.
    cbn [for_of]. unfold bind at 1.
    rewrite (report_step_send_fail ch log x e w1); [done | done | done |].
    unfold w1. rewrite Hdel, (after_items_sends ch log p pre w0 Hf). exact Hfail. }
  assert (Ht : trace w' =
      trace w ++ HttpPost feed :: flat_map (item_events ch log p) pre ++
      [ ChannelSend ch x e false;
        ConsoleError "Detailed error:" (Some DiscordAPIError) ]).
  { unfold w', w1. cbn. rewrite after_items_trace. unfold w0. cbn.
    by rewrite <- !app_assoc. }
  assert (Hfiles : files w' !! p =
      Some (log +:+ ledger_text (map report_id (List.filter (novel log) pre)))).
  { unfold w', w1. cbn. by apply after_items_files. }
  exists w'. split; [done |]. split; [done |]. split; [done |].
  intros Hinc' o2 w2 Hrun2.
  set (log' := log +:+ ledger_text (map report_id (List.filter (novel log) pre))) in *.
  assert (Hp' : logFile w' = Some p) by (unfold w', w1; cbn; by rewrite Hlf).
  clearbody w'. clear Hrun Ht.
  rewrite (cycle_nodes ch _ w' p log' Hp' Hfiles), for_of_app in Hrun2.
  set (v0 := emit (HttpPost feed) w') in *.
  assert (Hskip : forall n, n ∈ pre -> novel log' n = false).
  { intros n Hn. by apply processed_not_novel. }
  assert (Hf' : formattable log' pre).
  { intros n Hn Hnov. by rewrite (Hskip n Hn) in Hnov. }
  assert (Hd' : delivered log' pre v0).
  { intros k Hk. rewrite (filter_none _ _ Hskip) in Hk. simpl in Hk. lia. }
  rewrite (for_of_report_step_ok ch log' p pre v0 Hp' Hf' Hd') in Hrun2.
  set (v1 := after_items ch log' p pre v0) in *.
  assert (Hv1 : trace v1 = trace w' ++ HttpPost feed ::
            map (fun n => ConsoleLog (report_id n +:+ " skipping...")) pre).
  { unfold v1. rewrite after_items_trace, (flat_map_skips ch log' p pre Hskip).
    unfold v0. rewrite trace_emit. by rewrite <- app_assoc. }
  assert (Hpv : logFile v1 = Some p).
  { unfold v1.
    destruct (after_items_config ch log' p pre v0) as (_ & _ & _ & _ & -> & _). done. }
  clearbody v1.
  cbn [for_of] in Hrun2. unfold bind at 1 in Hrun2.
  destruct (deliver v1 (sends v1)) eqn:Hok.
  - rewrite (report_step_ok ch log' p x e v1) in Hrun2 by done.
    destruct (for_of (report_step ch log') post (item_effect ch log' p x v1))
      as [o3 w3] eqn:Hpost.
    assert (logFile (item_effect ch log' p x v1) = Some p) as Hp3.
    { destruct (item_effect_config ch log' p x v1) as (_ & _ & _ & _ & -> & _). done. }
    destruct (for_of_trace_extends ch log' p post _ o3 w3 Hp3 Hpost) as [evs Hevs].
    rewrite item_effect_trace, Hv1 in Hevs.
    rewrite (item_events_dispatch ch log' p x e) in Hevs;
      [| unfold novel; by rewrite Hinc' | done].
    exists true. destruct o3 as [[]|err]; injection Hrun2 as <- <-.
    + exists (FileAppend p (report_id x +:+ Str.nl) :: Timeout 5000 :: evs).
      rewrite Hevs. by rewrite <- !app_assoc.
    + exists (FileAppend p (report_id x +:+ Str.nl) :: Timeout 5000 :: evs ++
              [ ConsoleError "Detailed error:" (Some err) ]).
      rewrite trace_emit, Hevs. by rewrite <- !app_assoc.
  - rewrite (report_step_send_fail ch log' x e v1) in Hrun2 by done.
    injection Hrun2 as <- <-. exists false.
    exists [ ConsoleError "Detailed error:" (Some DiscordAPIError) ].
    rewrite !trace_emit. change (trace (set_sends ?n ?v)) with (trace v).
    rewrite Hv1. by rewrite <- !app_assoc.
Qed.

(** ** Severity tables and the builder *)

Lemma lookup_icons_unknown k : k ∉ known_severities -> icons !! k = None.
Proof.
  unfold known_severities, icons. rewrite !not_elem_of_cons.
  intros (? & ? & ? & ? & ? & _). cbn.
  by rewrite !lookup_insert_ne, lookup_empty.
Qed.

Lemma lookup_colors_unknown k : k ∉ known_severities -> colors !! k = None.
Proof.
  unfold known_severities, colors. rewrite !not_elem_of_cons.
  intros (? & ? & ? & ? & ? & _). cbn.
  by rewrite !lookup_insert_ne, lookup_empty.
Qed.

(** The fallback is reached by every severity that is neither a key of
    the table nor a name inherited from [Object.prototype]. *)
Lemma severity_fallback severity :
  ToString severity ∉ known_severities ->
  ToString severity ∉ Object_prototype ->
  getSeverityIcon severity = VString "-" /\
  getSeverityColor severity = VNumber 0.
Proof.
  intros Hk Hp. unfold getSeverityIcon, getSeverityColor, get_property.
  rewrite (lookup_icons_unknown _ Hk), (lookup_colors_unknown _ Hk).
  by rewrite bool_decide_eq_false_2.
Qed.

(** A colour the builder accepts comes with a label it accepts: both
    tables have the same keys and inherit the same names. *)
Lemma accepted_colour_has_label severity :
  colorPredicate (getSeverityColor severity) = true ->
  fieldValuePredicate (getSeverityIcon severity) = true.
Proof.
  destruct (decide (ToString severity ∈ known_severities)) as [Hk|Hk].
  - intros _. unfold known_severities, getSeverityIcon in *.
    repeat (apply elem_of_cons in Hk as [-> | Hk]; [reflexivity |]).
    by apply elem_of_nil in Hk.
  - destruct (decide (ToString severity ∈ Object_prototype)) as [Hp|Hp].
    + unfold getSeverityColor, get_property.
      rewrite (lookup_colors_unknown _ Hk), bool_decide_eq_true_2 by done. done.
    + intros _. by rewrite (proj1 (severity_fallback severity Hk Hp)).
Qed.

(** A severity inherited from [Object.prototype] gives a colour the
    builder refuses. *)
Lemma inherited_colour_refused severity :
  ToString severity ∈ Object_prototype ->
  colorPredicate (getSeverityColor severity) = false.
Proof.
  intros Hp. assert (ToString severity ∉ known_severities) as Hk.
  { unfold Object_prototype, known_severities in *.
    repeat (apply elem_of_cons in Hp as [->|Hp]; [compute_done |]).
    by apply elem_of_nil in Hp. }
  unfold getSeverityColor, get_property.
  by rewrite (lookup_colors_unknown _ Hk), bool_decide_eq_true_2.
Qed.

(** ** A currency code that cannot be formatted *)

Lemma formatBounty_rejects a c :
  rejected_currency c -> exists err, formatBounty a c = Throw err.
Proof.
  intros [-> | Hc]; [by eexists |].
  unfold formatBounty. destruct c; [by eexists | |]; rewrite Hc; by eexists.
Qed.

Lemma formatBounty_accepts a c :
  ~ rejected_currency c ->
  formatBounty a c = Ret ("💰 " +:+ currency_text (ToString c) a).
Proof.
  unfold rejected_currency, formatBounty. intros Hc.
  destruct (IsWellFormedCurrencyCode (ToString c)) eqn:Hw.
  - destruct c; [tauto | done | done].
  - tauto.
Qed.


Lemma setters_accept_spec n :
  setters_accept n = true ->
  titlePredicate (title (report n)) = true /\
  valid_url (url (report n)) = true /\
  descriptionPredicate (description_text n) = true /\
  colorPredicate (getSeverityColor (severity_rating n)) = true.
Proof. unfold setters_accept. rewrite !andb_true_iff. tauto. Qed.

(** Once the setters have accepted the item, the bounty decides. *)
Lemma createReportEmbed_after_setters n :
  setters_accept n = true ->
  createReportEmbed n =
  match formatBounty (total_awarded_amount n) (team_currency n) with
  | Throw e => Throw e
  | Ret bounty =>
      if fieldValuePredicate (VString bounty) then
        Ret {| embed_title := title (report n);
               embed_url := url (report n);
               description := description_text n;
               color := getSeverityColor (severity_rating n);
               fields := [ mkField "Severity" (getSeverityIcon (severity_rating n)) true;
                           mkField "Bounty" (VString bounty) true ] |}
      else Throw (ValidationError "addFields")
  end.
Proof.
  intros (Ht & Hu & Hd & Hc)%setters_accept_spec. unfold createReportEmbed.
  rewrite Ht, Hu, Hd, Hc, (accepted_colour_has_label _ Hc). reflexivity.
Qed.

Lemma createReportEmbed_refused n :
  setters_accept n = false ->
  exists setter, createReportEmbed n = Throw (ValidationError setter).
Proof.
  unfold setters_accept, createReportEmbed. intros H.
  destruct (titlePredicate _); [| by eexists].
  destruct (valid_url _); [| by eexists].
  destruct (descriptionPredicate _); [| by eexists].
  destruct (colorPredicate _); [discriminate H | by eexists].
Qed.



(** ** The event handlers *)

Lemma run_cons i inputs w :
  run (i :: inputs) w =
  match handle i w with
  | (Ret _, w1) => run inputs w1
  | (Throw e, w1) => (Throw e, w1)
  end.
Proof. reflexivity. Qed.

Lemma start_no_record r w cp :
  channelFile w = Some cp -> files w !! cp = None ->
  startHacktivityMonitoring r w =
  (Ret tt, emit (ConsoleError "Monitoring setup error:" (Some (ENOENT cp))) w).
Proof.
  intros Hc Hf. unfold startHacktivityMonitoring, try_catch, bind, gets.
  rewrite Hc. cbn. unfold bind, gets. by rewrite Hf.
Qed.

Lemma start_no_path r w :
  channelFile w = None ->
  startHacktivityMonitoring r w =
  (Ret tt, emit (ConsoleError "Monitoring setup error:" (Some invalid_path)) w).
Proof.
  intros Hc. unfold startHacktivityMonitoring, try_catch, bind, gets. by rewrite Hc.
Qed.

Lemma start_unknown_channel r w cp id :
  channelFile w = Some cp -> files w !! cp = Some id -> id ∉ cache w ->
  startHacktivityMonitoring r w =
  (Ret tt, emit (ConsoleError "Monitoring channel not found" None) w).
Proof.
  intros Hc Hf Hid. unfold startHacktivityMonitoring, try_catch, bind, gets.
  rewrite Hc. cbn. unfold bind, gets. rewrite Hf. cbn.
  by rewrite bool_decide_eq_false_2.
Qed.

Lemma start_known_channel r w cp id :
  channelFile w = Some cp -> files w !! cp = Some id -> id ∈ cache w ->
  startHacktivityMonitoring r w =
  (Ret tt, let w1 := (checkHacktivityReports id r w).2 in
           set_intervals (intervals w1 ++ [id]) w1).
Proof.
  intros Hc Hf Hid. unfold startHacktivityMonitoring, try_catch, bind, gets.
  rewrite Hc. cbn. unfold bind, gets. rewrite Hf. cbn.
  rewrite bool_decide_eq_true_2 by done.
  pose proof (cycle_returns id r w) as Hr.
  destruct (checkHacktivityReports id r w) as [o w1]. simpl in Hr. by subst o.
Qed.

Lemma on_interval_idle i r w : intervals w !! i = None -> on_interval i r w = (Ret tt, w).
Proof. intros H. unfold on_interval, bind, gets. by rewrite H. Qed.

Lemma on_interval_fires i r w ch :
  intervals w !! i = Some ch -> on_interval i r w = checkHacktivityReports ch r w.
Proof. intros H. unfold on_interval, bind, gets. by rewrite H. Qed.

(** What a chat message can do: nothing, a reply, or the record of the
    channel followed by a reply. *)
Lemma on_messageCreate_cases m w cp :
  channelFile w = Some cp ->
  exists w' evs,
    on_messageCreate m w = (Ret tt, w') /\
    trace w' = trace w ++ evs /\
    send_attempts evs = [] /\ sent_items evs = [] /\ requests evs = [] /\
    console_errors evs = [] /\ appended evs = [] /\
    same_config w w' /\ sends w' = sends w /\
    (forall q, q <> cp -> files w' !! q = files w !! q).
Proof.
  intros Hc. unfold on_messageCreate.
  destruct (String.eqb (content m) ".setup").
  - unfold setupMonitoringChannel. destruct (administrator m).
    + unfold bind, gets. rewrite Hc. cbn.
      eexists _, [_; _]. split; [reflexivity |]. cbn.
      split; [by rewrite <- app_assoc |].
      repeat (split; [done |]). intros q Hq. by rewrite lookup_insert_ne.
    + eexists _, [_]. split; [reflexivity |]. by cbn.
  - exists w, []. split; [done |]. by rewrite app_nil_r.
Qed.

Lemma on_ready_unfold r w :
  on_ready r w =
  startHacktivityMonitoring r (emit (ConsoleLog ("Logged in as " +:+ user_tag w)) w).
Proof. reflexivity. Qed.

(** What any handler does to the ledger at [p]. *)
Lemma handle_reads i w p cp log o w' :
  logFile w = Some p -> channelFile w = Some cp -> cp <> p ->
  files w !! p = Some log ->
  handle i w = (o, w') ->
  o = Ret tt /\
  exists evs,
    trace w' = trace w ++ evs /\
    logFile w' = Some p /\ channelFile w' = Some cp /\
    files w' !! p = Some (log +:+ ledger_text (map report_id (sent_items evs))) /\
    appended evs = map (fun n => report_id n +:+ Str.nl) (sent_items evs).
Proof.
  intros Hp Hc Hne Hlog Hrun. destruct i as [r | k r | m]; cbn [handle] in Hrun.
  - rewrite on_ready_unfold in Hrun.
    set (w0 := emit (ConsoleLog ("Logged in as " +:+ user_tag w)) w) in *.
    destruct (files w !! cp) as [id|] eqn:Hid.
    + destruct (decide (id ∈ cache w)) as [Hin|Hin].
      * rewrite (start_known_channel r w0 cp id) in Hrun by done.
        injection Hrun as <- <-. split; [done |].
        destruct (checkHacktivityReports id r w0) as [o1 w1] eqn:Hcyc.
        destruct (cycle_reads id r w0 p log o1 w1 Hp Hlog Hcyc)
          as (_ & evs & Ht & Hcfg & Hfiles & _ & Happ & _).
        destruct Hcfg as (_ & _ & _ & _ & Hl & Hcf & _).
        exists (ConsoleLog ("Logged in as " +:+ user_tag w) :: evs).
        cbn. rewrite Ht, Hl, Hcf. unfold w0. rewrite trace_emit, <- app_assoc.
        done.
      * rewrite (start_unknown_channel r w0 cp id) in Hrun by done.
        injection Hrun as <- <-. split; [done |].
        eexists [_; _]. split; [unfold w0; rewrite !trace_emit; by rewrite <- app_assoc |].
        cbn. by rewrite app_empty_r.
    + rewrite (start_no_record r w0 cp) in Hrun by done.
      injection Hrun as <- <-. split; [done |].
      eexists [_; _]. split; [unfold w0; rewrite !trace_emit; by rewrite <- app_assoc |].
      cbn. by rewrite app_empty_r.
  - destruct (intervals w !! k) as [ch|] eqn:Hk.
    + rewrite (on_interval_fires k r w ch Hk) in Hrun.
      destruct (cycle_reads ch r w p log o w' Hp Hlog Hrun)
        as (-> & evs & Ht & Hcfg & Hfiles & _ & Happ & _).
      destruct Hcfg as (_ & _ & _ & _ & Hl & Hcf & _).
      split; [done |]. exists evs. by rewrite Hl, Hcf.
    + rewrite (on_interval_idle k r w Hk) in Hrun. injection Hrun as <- <-.
      split; [done |]. exists []. rewrite app_nil_r. cbn. by rewrite app_empty_r.
  - destruct (on_messageCreate_cases m w cp Hc)
      as (w1 & evs & Hm & Ht & _ & Hs & _ & _ & Ha & Hcfg & _ & Hfiles).
    rewrite Hm in Hrun. injection Hrun as <- <-. split; [done |].
    destruct Hcfg as (_ & _ & _ & _ & Hl & Hcf & _).
    exists evs. rewrite Hl, Hcf, Hs, Ha, (Hfiles p) by done.
    cbn. by rewrite app_empty_r.
Qed.

Lemma run_reads inputs w p cp entries o w' :
  logFile w = Some p -> channelFile w = Some cp -> cp <> p ->
  files w !! p = Some (ledger_text entries) ->
  run inputs w = (o, w') ->
  o = Ret tt /\
  exists evs,
    trace w' = trace w ++ evs /\
    appended evs = map (fun n => report_id n +:+ Str.nl) (sent_items evs) /\
    files w' !! p = Some (ledger_text (entries ++ map report_id (sent_items evs))).
Proof.
  revert w entries. induction inputs as [|i inputs IH]; intros w entries Hp Hc Hne Hlog Hrun.
  - injection Hrun as <- <-. split; [done |]. exists [].
    by rewrite !app_nil_r.
  - rewrite run_cons in Hrun. destruct (handle i w) as [o1 w1] eqn:Hh.
    destruct (handle_reads i w p cp _ o1 w1 Hp Hc Hne Hlog Hh)
      as (-> & evs1 & Ht1 & Hp1 & Hc1 & Hf1 & Ha1).
    rewrite <- ledger_text_app in Hf1.
    destruct (IH w1 _ Hp1 Hc1 Hne Hf1 Hrun) as (-> & evs2 & Ht2 & Ha2 & Hf2).
    split; [done |]. exists (evs1 ++ evs2).
    rewrite Ht2, Ht1, <- app_assoc, appended_app, sent_items_app, Ha1, Ha2.
    rewrite !map_app, Hf2, <- app_assoc. done.
Qed.

(** ** The ledger only grows *)

(** C6.  From a ledger that holds [entries], every cycle leaves a ledger
    that holds the same entries followed by one identifier per item
    delivered in that cycle, in delivery order: nothing is removed or
    rewritten and the number of entries grows by exactly the number of
    deliveries.  The same holds over any sequence of events the bot
    handles (start of monitoring, timer ticks, chat messages). *)
Theorem ledger_append_only w p cp entries :
  logFile w = Some p ->
  channelFile w = Some cp ->
  cp <> p ->
  files w !! p = Some (ledger_text entries) ->
  (forall ch r o w',
     checkHacktivityReports ch r w = (o, w') ->
     exists evs,
       trace w' = trace w ++ evs /\
       appended evs = map (fun n => report_id n +:+ Str.nl) (sent_items evs) /\
       files w' !! p = Some (ledger_text (entries ++ map report_id (sent_items evs))) /\
       length (entries ++ map report_id (sent_items evs)) =
         length entries + length (sent_items evs)) /\
  (forall inputs o w',
     run inputs w = (o, w') ->
     exists evs,
       trace w' = trace w ++ evs /\
       appended evs = map (fun n => report_id n +:+ Str.nl) (sent_items evs) /\
       files w' !! p = Some (ledger_text (entries ++ map report_id (sent_items evs))) /\
       length (entries ++ map report_id (sent_items evs)) =
         length entries + length (sent_items evs)).
Proof.
  intros Hp Hc Hne Hlog. split.
  - intros ch r o w' Hrun.
    destruct (cycle_reads ch r w p _ o w' Hp Hlog Hrun)
      as (_ & evs & Ht & _ & Hfiles & _ & Happ & _).
    exists evs. rewrite Hfiles, <- ledger_text_app, length_app, length_map. done.
  - intros inputs o w' Hrun.
    destruct (run_reads inputs w p cp entries o w' Hp Hc Hne Hlog Hrun)
      as (_ & evs & Ht & Happ & Hfiles).
    exists evs. by rewrite length_app, length_map.
Qed.

(** Read back line by line: when the identifiers are single lines, the
    lines of the ledger after a cycle are its lines before, followed by
    the identifiers delivered in the cycle. *)
Lemma cycle_ledger_lines ch nodes w p entries o w' :
  logFile w = Some p ->
  files w !! p = Some (ledger_text entries) ->
  Forall (fun id => single_line id = true) entries ->
  (forall n, n ∈ nodes -> single_line (report_id n) = true) ->
  checkHacktivityReports ch (Nodes nodes) w = (o, w') ->
  exists evs text,
    trace w' = trace w ++ evs /\
    files w' !! p = Some text /\
    lines text = lines (ledger_text entries) ++ map report_id (sent_items evs) /\
    length (lines text) = length (lines (ledger_text entries)) + length (sent_items evs).
Proof.
  intros Hp Hlog Hent Hids Hrun.
  destruct (cycle_reads ch _ w p _ o w' Hp Hlog Hrun)
    as (_ & evs & Ht & _ & Hfiles & _ & _ & _ & _).
  exists evs, (ledger_text (entries ++ map report_id (sent_items evs))).
  split; [done |]. split; [by rewrite Hfiles, ledger_text_app |].
  assert (lines (ledger_text (entries ++ map report_id (sent_items evs))) =
          lines (ledger_text entries) ++ map report_id (sent_items evs)) as Hl.
  { rewrite !lines_ledger_text; [done | done |].
    apply Forall_app. split; [done |]. apply Forall_forall.
    intros id (n & -> & Hn)%list_elem_of_fmap. apply Hids.
    apply sent_items_attempted in Hn.
    by destruct (attempts_novel ch nodes w p _ o w' evs n true Hp Hlog Hrun Ht Hn). }
  split; [done |]. by rewrite Hl, length_app, length_map.
Qed.

(** ** A fetch that fails *)

Lemma cycle_without_nodes ch r w :
  (forall nodes, r <> Nodes nodes) ->
  exists err,
    checkHacktivityReports ch r w =
    (Ret tt, emit (ConsoleError "Detailed error:" (Some err)) (emit (HttpPost feed) w)).
Proof.
  intros Hr. destruct r as [| |nodes]; [| | by destruct (Hr nodes)].
  - exists AxiosError. apply cycle_rejected.
  - destruct (logFile w) as [p|] eqn:Hp.
    + destruct (files w !! p) as [log|] eqn:Hlog.
      * exists no_nodes. by apply (cycle_no_nodes ch w p log).
      * exists (ENOENT p). by apply cycle_no_ledger.
    + exists invalid_path. by apply cycle_no_path.
Qed.

(** C8.  When the request to the feed is rejected, or the response has no
    nodes, the cycle returns normally having issued the request and
    logged one error and nothing else: no delivery is attempted, no file
    is written (ledger and channel record keep their contents), the timer
    stays registered, and the events that follow are handled from the
    same state. *)
Theorem fetch_failure_is_contained ch r w :
  (forall nodes, r <> Nodes nodes) ->
  exists err w',
    checkHacktivityReports ch r w = (Ret tt, w') /\
    w' = emit (ConsoleError "Detailed error:" (Some err)) (emit (HttpPost feed) w) /\
    send_attempts (trace w') = send_attempts (trace w) /\
    file_writes (trace w') = file_writes (trace w) /\
    files w' = files w /\
    intervals w' = intervals w /\
    (forall i rest,
       intervals w !! i = Some ch ->
       run (Tick i r :: rest) w = run rest w').
Proof.
  intros Hr. destruct (cycle_without_nodes ch r w Hr) as [err Hrun].
  exists err. eexists. split; [exact Hrun |]. split; [done |].
  split; [| split; [| split; [done | split; [done |]]]].
  - rewrite !trace_emit. unfold send_attempts. rewrite !omap_app. cbn.
    by rewrite !app_nil_r.
  - rewrite !trace_emit. unfold file_writes. rewrite !omap_app. cbn.
    by rewrite !app_nil_r.
  - intros i rest Hi. rewrite run_cons. cbn [handle].
    by rewrite (on_interval_fires i r w ch Hi), Hrun.
Qed.

(** ** Monitoring without a configured channel *)

Lemma idle_run inputs w cp :
  channelFile w = Some cp ->
  intervals w = [] ->
  (forall r, Ready r ∉ inputs) ->
  exists w' evs,
    run inputs w = (Ret tt, w') /\
    trace w' = trace w ++ evs /\
    intervals w' = [] /\
    send_attempts evs = [] /\ requests evs = [] /\ console_errors evs = [].
Proof.
  revert w. induction inputs as [|i inputs IH]; intros w Hc Hi Hnr.
  - exists w, []. by rewrite app_nil_r.
  - assert (forall r, Ready r ∉ inputs) as Hnr'.
    { intros r Hin. apply (Hnr r). by right. }
    rewrite run_cons. destruct i as [r | k r | m]; cbn [handle].
    + destruct (Hnr r). left.
    + rewrite on_interval_idle by (by rewrite Hi).
      by apply IH.
    + destruct (on_messageCreate_cases m w cp Hc)
        as (w1 & evs1 & -> & Ht1 & Ha1 & _ & Hq1 & He1 & _ & Hcfg & _).
      destruct Hcfg as (_ & _ & _ & _ & _ & Hcf & Hint).
      destruct (IH w1) as (w' & evs2 & -> & Ht2 & Hi2 & Ha2 & Hq2 & He2);
        [congruence | congruence | done |].
      exists w', (evs1 ++ evs2). split; [done |].
      rewrite Ht2, Ht1, <- app_assoc. split; [done |]. split; [done |].
      unfold send_attempts, requests, console_errors in *.
      rewrite !omap_app, Ha1, Ha2, Hq1, Hq2, He1, He2. done.
Qed.

(** C9.  When the bot becomes ready and no channel record exists,
    monitoring does not start: the condition is logged once, no request
    is made, no delivery is attempted and no timer is registered.
    Whatever timer ticks and chat messages follow, the bot handles them
    without failing and still makes no request and no delivery, logs no
    further error, and registers no timer. *)
Theorem unconfigured_destination_never_sends w cp r inputs :
  channelFile w = Some cp ->
  files w !! cp = None ->
  intervals w = [] ->
  (forall r', Ready r' ∉ inputs) ->
  exists w1 w2 evs,
    on_ready r w = (Ret tt, w1) /\
    w1 = emit (ConsoleError "Monitoring setup error:" (Some (ENOENT cp)))
              (emit (ConsoleLog ("Logged in as " +:+ user_tag w)) w) /\
    run (Ready r :: inputs) w = (Ret tt, w2) /\
    trace w2 = trace w1 ++ evs /\
    intervals w2 = [] /\
    send_attempts evs = [] /\ requests evs = [] /\ console_errors evs = [].
Proof.
  intros Hc Hf Hi Hnr.
  set (w1 := emit (ConsoleError "Monitoring setup error:" (Some (ENOENT cp)))
               (emit (ConsoleLog ("Logged in as " +:+ user_tag w)) w)).
  assert (Hready : on_ready r w = (Ret tt, w1)).
  { rewrite on_ready_unfold. by apply start_no_record. }
  destruct (idle_run inputs w1 cp Hc Hi Hnr) as (w2 & evs & Hrun & Ht & Hi2 & Hrest).
  exists w1, w2, evs. split; [done |]. split; [done |]. split; [| done].
  rewrite run_cons. cbn [handle]. by rewrite Hready.
Qed.

(** ** Start-up *)

Lemma paths_differ dir : path_join dir "channel.txt" <> path_join dir "log.txt".
Proof.
  unfold path_join. intros H. by apply app_inv_head_s in H.
Qed.

(** What start-up does, for a process whose fields are not assigned yet. *)
Lemma boot_outcome w :
  logFile w = None ->
  exists w',
    boot w = (Ret tt, w') /\
    logFile w' = Some (path_join (cwd w) "log.txt") /\
    channelFile w' = Some (path_join (cwd w) "channel.txt") /\
    files w' !! path_join (cwd w) "log.txt" = Some "" /\
    files w' !! path_join (cwd w) "channel.txt" =
      files w !! path_join (cwd w) "channel.txt" /\
    intervals w' = intervals w /\
    send_attempts (trace w') = send_attempts (trace w) /\
    FileWrite (path_join (cwd w) "log.txt") "" ∈ trace w'.
Proof.
  intros Hl. unfold boot, constructor, initializeFiles_begin, bind, gets, modify, ret.
  rewrite Hl. cbn.
  unfold initializeFiles_resume, bind, try_catch, gets, modify. cbn.
  rewrite lookup_insert_ne by (intros H; by apply (paths_differ (cwd w))).
  destruct (files w !! path_join (cwd w) "channel.txt") eqn:Hc; cbn;
    eexists; (split; [reflexivity |]); cbn;
    rewrite lookup_insert_eq, lookup_insert_ne, Hc
      by (intros H; by apply (paths_differ (cwd w)));
    unfold send_attempts; rewrite !omap_app; cbn; rewrite !app_nil_r;
    repeat (split; [done |]);
    rewrite !elem_of_app, !list_elem_of_singleton; auto.
Qed.

(** C2.  The constructor calls [initializeFiles] before it assigns
    [this.logFile], so the probe is made with [undefined] and is
    rejected; the handler then writes the empty text to the ledger path.
    Start-up therefore leaves an empty ledger whatever the file held:
    an absent ledger is created empty, an existing one is emptied. *)
Theorem startup_resets_ledger w :
  logFile w = None ->
  exists w',
    boot w = (Ret tt, w') /\
    FileWrite (path_join (cwd w) "log.txt") "" ∈ trace w' /\
    files w' !! path_join (cwd w) "log.txt" = Some "".
Proof.
  intros Hl.
  destruct (boot_outcome w Hl) as (w' & Hb & _ & _ & Hf & _ & _ & _ & Hw).
  by exists w'.
Qed.

(** A process started without a channel record reaches the state in
    which monitoring cannot start. *)
Lemma startup_without_channel w :
  logFile w = None ->
  intervals w = [] ->
  files w !! path_join (cwd w) "channel.txt" = None ->
  exists w',
    boot w = (Ret tt, w') /\
    channelFile w' = Some (path_join (cwd w) "channel.txt") /\
    files w' !! path_join (cwd w) "channel.txt" = None /\
    intervals w' = [].
Proof.
  intros Hl Hi Hc.
  destruct (boot_outcome w Hl) as (w' & Hb & _ & Hcf & _ & Hfc & Hint & _).
  exists w'. rewrite Hfc, Hint. done.
Qed.

(** ** Names the severity tables inherit *)

(** C7.  A severity that is a name inherited from [Object.prototype] is
    none of the five categories, yet it is read from the prototype, the
    value read is truthy, and neither function yields its fallback. *)
Theorem inherited_severity_escapes_fallback severity :
  ToString severity ∈ Object_prototype ->
  (ToString severity ∉ known_severities) /\
  getSeverityIcon severity = VBuiltin (ToString severity) /\
  getSeverityColor severity = VBuiltin (ToString severity) /\
  getSeverityIcon severity <> VString "-" /\
  getSeverityColor severity <> VNumber 0.
Proof.
  intros Hp. assert (ToString severity ∉ known_severities) as Hk.
  { unfold Object_prototype, known_severities in *.
    repeat (apply elem_of_cons in Hp as [->|Hp]; [compute_done |]).
    by apply elem_of_nil in Hp. }
  unfold getSeverityIcon, getSeverityColor, get_property.
  rewrite (lookup_icons_unknown _ Hk), (lookup_colors_unknown _ Hk).
  by rewrite bool_decide_eq_true_2.
Qed.

(** * Further properties of the handlers *)

(** ** Shapes of a cycle *)

Lemma cycle_cases ch r w :
  (exists err,
     checkHacktivityReports ch r w =
     (Ret tt, emit (ConsoleError "Detailed error:" (Some err)) (emit (HttpPost feed) w))) \/
  (exists nodes p log,
     r = Nodes nodes /\ logFile w = Some p /\ files w !! p = Some log).
Proof.
  destruct r as [| |nodes].
  - left. exists AxiosError. apply cycle_rejected.
  - left. apply cycle_without_nodes. intros nodes. discriminate.
  - destruct (logFile w) as [p|] eqn:Hp.
    + destruct (files w !! p) as [log|] eqn:Hlog.
      * right. by exists nodes, p, log.
      * left. exists (ENOENT p). by apply cycle_no_ledger.
    + left. exists invalid_path. by apply cycle_no_path.
Qed.

Lemma cycle_keeps_config ch r w : same_config w (checkHacktivityReports ch r w).2.
Proof.
  destruct (cycle_cases ch r w) as [[err ->] | (nodes & p & log & -> & Hp & Hlog)].
  - done.
  - destruct (checkHacktivityReports ch (Nodes nodes) w) as [o w'] eqn:Hrun.
    by destruct (cycle_shape ch nodes w p log o w' Hp Hlog Hrun)
      as (_ & done & rest & tail & _ & _ & _ & _ & _ & Hc & _).
Qed.

Lemma set_trace_id w : set_trace (trace w) w = w.
Proof. by destruct w. Qed.

Lemma after_items_all_skipped ch log p l w :
  (forall n, n ∈ l -> Str.includes log (report_id n) = true) ->
  after_items ch log p l w = set_trace (trace w ++ map skip_line l) w.
Proof.
  revert w. induction l as [|n l IH]; intros w Hl.
  - cbn. by rewrite app_nil_r, set_trace_id.
  - change (after_items ch log p (n :: l) w)
      with (after_items ch log p l (item_effect ch log p n w)).
    rewrite IH by (intros m Hm; apply Hl; by right).
    unfold item_effect. rewrite (Hl n) by left.
    cbn. by rewrite <- app_assoc.
Qed.

(** A cycle over a batch whose identifiers all occur in the ledger text. *)
Lemma cycle_all_skipped ch nodes w p log :
  logFile w = Some p -> files w !! p = Some log ->
  (forall n, n ∈ nodes -> Str.includes log (report_id n) = true) ->
  checkHacktivityReports ch (Nodes nodes) w =
  (Ret tt, set_trace (trace w ++ HttpPost feed :: map skip_line nodes) w).
Proof.
  intros Hp Hlog Hall.
  assert (forall n, n ∈ nodes -> novel log n = false) as Hnov.
  { intros n Hn. unfold novel. by rewrite (Hall n Hn). }
  rewrite (cycle_nodes ch nodes w p log Hp Hlog).
  rewrite (for_of_report_step_ok ch log p nodes (emit (HttpPost feed) w)); [| done | |].
  - rewrite after_items_all_skipped by done. cbn. by rewrite <- app_assoc.
  - intros n Hn Hx. by rewrite (Hnov n Hn) in Hx.
  - intros k Hk. rewrite (filter_none _ _ Hnov) in Hk. simpl in Hk. lia.
Qed.

(** ** Batches that are recorded already *)

(** X1.  When every identifier of the fetched batch occurs in the ledger
    text, the cycle makes its request, logs one skip per item in fetched
    order and does nothing else: no item is formatted (a currency that
    cannot be formatted does no harm), nothing is sent, no file is
    written. *)
Theorem recorded_batch_only_skips ch nodes w p log :
  logFile w = Some p ->
  files w !! p = Some log ->
  (forall n, n ∈ nodes -> Str.occurs_in (report_id n) log) ->
  exists w',
    checkHacktivityReports ch (Nodes nodes) w = (Ret tt, w') /\
    trace w' = trace w ++ HttpPost feed :: map skip_line nodes /\
    files w' = files w /\
    sends w' = sends w.
Proof.
  intros Hp Hlog Hall.
  exists (set_trace (trace w ++ HttpPost feed :: map skip_line nodes) w).
  split; [| done].
  apply (cycle_all_skipped ch nodes w p log Hp Hlog).
  intros n Hn. by apply includes_spec, Hall.
Qed.

(** X2.  A cycle in which every novel item was formatted and delivered,
    followed by a cycle that fetches the same batch: the second cycle
    skips every item, sends nothing and writes nothing. *)
Theorem repeated_cycle_sends_nothing ch nodes w p log :
  logFile w = Some p ->
  files w !! p = Some log ->
  formattable log nodes ->
  delivered log nodes w ->
  exists w1 w2,
    checkHacktivityReports ch (Nodes nodes) w = (Ret tt, w1) /\
    checkHacktivityReports ch (Nodes nodes) w1 = (Ret tt, w2) /\
    trace w2 = trace w1 ++ HttpPost feed :: map skip_line nodes /\
    files w2 = files w1 /\
    sends w2 = sends w1.
Proof.
  intros Hp Hlog Hf Hd.
  destruct (cycle_completes ch nodes w p log Hp Hlog Hf Hd)
    as (w1 & Hrun & Hc & _ & Hfiles & _).
  destruct Hc as (_ & _ & _ & _ & Hl & _). rewrite Hp in Hl.
  exists w1, (set_trace (trace w1 ++ HttpPost feed :: map skip_line nodes) w1).
  split; [done |]. split; [| done].
  apply (cycle_all_skipped ch nodes w1 p _ Hl Hfiles).
  intros n Hn. pose proof (processed_not_novel log nodes n Hn) as Hnov.
  unfold novel in Hnov. by apply negb_false_iff in Hnov.
Qed.

(** ** The ledger is read once per cycle *)




(** ** What a cycle sends, and how much *)

Lemma item_events_send ch log p m c n e ok :
  ChannelSend c n e ok ∈ item_events ch log p m ->
  c = ch /\ n = m /\ ok = true /\ createReportEmbed n = Ret e.
Proof.
  unfold item_events. destruct (Str.includes log (report_id m)).
  - intros H%list_elem_of_singleton. discriminate H.
  - destruct (createReportEmbed m) as [e'|err] eqn:He.
    + intros H. apply elem_of_cons in H as [H|H]; [by injection H as -> -> -> -> |].
      apply elem_of_cons in H as [H|H]; [discriminate H |].
      apply list_elem_of_singleton in H. discriminate H.
    + intros H. by apply elem_of_nil in H.
Qed.

(** X4.  Whatever the feed answers and whichever delivery fails, every
    call of [channel.send] in a cycle goes to the channel the cycle was
    started with, for an item of the fetched batch, and carries the
    payload [createReportEmbed] builds for that item. *)
Theorem sends_carry_the_formatted_item ch r w o w' :
  checkHacktivityReports ch r w = (o, w') ->
  exists evs,
    trace w' = trace w ++ evs /\
    forall c n e ok,
      ChannelSend c n e ok ∈ evs ->
      c = ch /\ createReportEmbed n = Ret e /\
      exists nodes, r = Nodes nodes /\ n ∈ nodes.
Proof.
  intros Hrun.
  destruct (cycle_cases ch r w) as [[err Herr] | (nodes & p & log & -> & Hp & Hlog)].
  - rewrite Herr in Hrun. injection Hrun as <- <-.
    eexists [_; _]. split; [rewrite !trace_emit; by rewrite <- app_assoc |].
    intros c n e ok H. apply elem_of_cons in H as [H|H]; [discriminate H |].
    apply list_elem_of_singleton in H. discriminate H.
  - destruct (cycle_shape ch nodes w p log o w' Hp Hlog Hrun)
      as (_ & done & rest & tail & -> & _ & _ & Hhalt & Ht & _).
    eexists. split; [exact Ht |].
    intros c n e ok H. apply elem_of_cons in H as [H|H]; [discriminate H |].
    apply elem_of_app in H as [H|H].
    + apply list_elem_of_In, in_flat_map in H as (m & Hm & H).
      apply list_elem_of_In in H, Hm.
      apply item_events_send in H as (-> & -> & _ & He).
      split; [done |]. split; [done |]. eexists. split; [done |].
      apply elem_of_app. by left.
    + inversion Hhalt as [Hr Htl | x post e' Hx He Hdl Hr Htl | x post err Hx He Hr Htl];
        subst tail.
      * by apply elem_of_nil in H.
      * apply elem_of_cons in H as [H|H].
        -- injection H as -> -> -> ->. split; [done |]. split; [done |].
           eexists. split; [done |]. apply elem_of_app. right. left.
        -- apply list_elem_of_singleton in H. discriminate H.
      * apply list_elem_of_singleton in H. discriminate H.
Qed.

Lemma requests_items ch log p done : requests (flat_map (item_events ch log p) done) = [].
Proof.
  induction done as [|n done IH]; [done |].
  cbn [flat_map]. unfold requests in *. rewrite omap_app, IH, app_nil_r.
  unfold item_events. destruct (Str.includes log (report_id n)); [done |].
  by destruct (createReportEmbed n).
Qed.

Lemma pauses_items ch log p done :
  formattable log done ->
  pauses (flat_map (item_events ch log p) done) =
  replicate (length (List.filter (novel log) done)) 5000%Z.
Proof.
  induction done as [|n done IH]; intros Hf; [done |].
  apply formattable_cons in Hf as [Hn Hf].
  cbn [flat_map List.filter]. unfold pauses in *. rewrite omap_app, IH by done.
  unfold item_events, novel in *.
  destruct (Str.includes log (report_id n)); [done |].
  by destruct (Hn eq_refl) as [e ->].
Qed.

(** X5.  Every cycle returns normally and makes exactly one request to the
    feed; it pauses 5000 ms once per delivered item and never otherwise;
    and at most one call of [channel.send] fails in it, the last one. *)
Theorem cycle_budget ch r w o w' :
  checkHacktivityReports ch r w = (o, w') ->
  o = Ret tt /\
  exists evs failed,
    trace w' = trace w ++ evs /\
    requests evs = [feed] /\
    pauses evs = replicate (length (sent_items evs)) 5000%Z /\
    send_attempts evs = map (fun n => (n, true)) (sent_items evs) ++ failed /\
    length failed <= 1 /\
    (forall x, x ∈ failed -> x.2 = false).
Proof.
  intros Hrun.
  destruct (cycle_cases ch r w) as [[err Herr] | (nodes & p & log & -> & Hp & Hlog)].
  - rewrite Herr in Hrun. injection Hrun as <- <-. split; [done |].
    eexists [_; _], []. split; [rewrite !trace_emit; by rewrite <- app_assoc |].
    cbn. repeat (split; [done || lia |]). intros x Hx. by apply elem_of_nil in Hx.
  - destruct (cycle_shape ch nodes w p log o w' Hp Hlog Hrun)
      as (-> & done & rest & tail & -> & Hf & _ & Hhalt & Ht & _).
    split; [done |].
    exists (HttpPost feed :: flat_map (item_events ch log p) done ++ tail),
           (send_attempts tail).
    split; [exact Ht |].
    assert (requests tail = [] /\ pauses tail = [] /\ sent_items tail = [] /\
            length (send_attempts tail) <= 1 /\
            (forall x, x ∈ send_attempts tail -> x.2 = false)) as (Hq & Hz & Hs & Hlen & Hfail).
    { destruct Hhalt; cbn; repeat (split; [done || lia |]).
      - intros a Ha. by apply elem_of_nil in Ha.
      - intros a Ha. by apply list_elem_of_singleton in Ha as ->.
      - intros a Ha. by apply elem_of_nil in Ha. }
    change (requests (HttpPost feed :: ?l)) with (feed :: requests l).
    change (pauses (HttpPost feed :: ?l)) with (pauses l).
    change (sent_items (HttpPost feed :: ?l)) with (sent_items l).
    change (send_attempts (HttpPost feed :: ?l)) with (send_attempts l).
    unfold requests, pauses in *.
    rewrite !omap_app, Hq, Hz, sent_items_app, send_attempts_app, Hs, !app_nil_r.
    fold (requests (flat_map (item_events ch log p) done)).
    fold (pauses (flat_map (item_events ch log p) done)).
    rewrite requests_items, (pauses_items ch log p done Hf).
    rewrite (sent_items_items ch log p done Hf), (send_attempts_items ch log p done Hf).
    done.
Qed.

(** ** A ledger that has gone missing *)

(** X6.  When the ledger file is missing, a cycle whose request is
    answered stops at reading the ledger: the error is logged, nothing is
    sent and the file is not created again.  So over any sequence of
    timer ticks nothing is sent and the ledger stays missing. *)
Theorem missing_ledger_stops_relay w p :
  logFile w = Some p ->
  files w !! p = None ->
  (forall ch r,
     r <> Rejected ->
     checkHacktivityReports ch r w =
     (Ret tt, emit (ConsoleError "Detailed error:" (Some (ENOENT p)))
                   (emit (HttpPost feed) w))) /\
  (forall ticks : list (nat * response),
     exists w',
       run (map (fun t => Tick t.1 t.2) ticks) w = (Ret tt, w') /\
       files w' = files w /\
       send_attempts (trace w') = send_attempts (trace w)).
Proof.
  intros Hp Hlog. split.
  - intros ch r Hr. by apply cycle_no_ledger.
  - intros ticks. revert w Hp Hlog. induction ticks as [|[i r] ticks IH]; intros w Hp Hlog.
    + by exists w.
    + cbn [map]. rewrite run_cons. cbn [handle fst snd].
      destruct (intervals w !! i) as [ch|] eqn:Hi.
      * rewrite (on_interval_fires i r w ch Hi).
        assert (exists err, checkHacktivityReports ch r w =
                  (Ret tt, emit (ConsoleError "Detailed error:" (Some err))
                                (emit (HttpPost feed) w))) as [err ->].
        { destruct r as [| |nodes].
          - eexists. apply cycle_rejected.
          - eexists. by apply cycle_no_ledger.
          - eexists. by apply cycle_no_ledger. }
        destruct (IH (emit (ConsoleError "Detailed error:" (Some err))
                           (emit (HttpPost feed) w)) Hp Hlog)
          as (w' & -> & Hf & Hs).
        exists w'. split; [done |]. split; [done |]. rewrite Hs, !trace_emit.
        unfold send_attempts. rewrite !omap_app. cbn. by rewrite !app_nil_r.
      * rewrite (on_interval_idle i r w Hi). by apply IH.
Qed.

(** ** Start of monitoring *)

(** X7.  When the channel record names a channel the client knows, the
    ready handler runs one cycle on that channel at once and then
    registers one timer for it; each later tick of that timer runs a
    cycle on the same channel. *)
Theorem monitoring_starts_on_recorded_channel r w cp id :
  channelFile w = Some cp ->
  files w !! cp = Some id ->
  id ∈ cache w ->
  exists w1 w2,
    checkHacktivityReports id r (emit (ConsoleLog ("Logged in as " +:+ user_tag w)) w) =
      (Ret tt, w1) /\
    on_ready r w = (Ret tt, w2) /\
    w2 = set_intervals (intervals w ++ [id]) w1 /\
    (forall r', on_interval (length (intervals w)) r' w2 =
                checkHacktivityReports id r' w2).
Proof.
  intros Hc Hf Hid.
  set (w0 := emit (ConsoleLog ("Logged in as " +:+ user_tag w)) w).
  pose proof (cycle_returns id r w0) as Hret.
  destruct (cycle_keeps_config id r w0) as (_ & _ & _ & _ & _ & _ & Hint).
  destruct (checkHacktivityReports id r w0) as [o w1] eqn:Hrun.
  simpl in Hret, Hint. subst o.
  exists w1, (set_intervals (intervals w ++ [id]) w1).
  split; [done |]. split; [| split; [done |]].
  - rewrite on_ready_unfold. fold w0.
    rewrite (start_known_channel r w0 cp id) by done.
    rewrite Hrun. cbn. by rewrite Hint.
  - intros r'. apply on_interval_fires. cbn.
    by rewrite lookup_app_r, Nat.sub_diag by lia.
Qed.

(** X8.  When the channel record names a channel the client does not
    know, the ready handler logs that the channel was not found, makes no
    request and registers no timer; the ticks and chat messages that
    follow cause no request and no delivery. *)
Theorem unknown_channel_never_polls w cp id r inputs :
  channelFile w = Some cp ->
  files w !! cp = Some id ->
  id ∉ cache w ->
  intervals w = [] ->
  (forall r', Ready r' ∉ inputs) ->
  exists w1 w2 evs,
    on_ready r w = (Ret tt, w1) /\
    w1 = emit (ConsoleError "Monitoring channel not found" None)
              (emit (ConsoleLog ("Logged in as " +:+ user_tag w)) w) /\
    run (Ready r :: inputs) w = (Ret tt, w2) /\
    trace w2 = trace w1 ++ evs /\
    intervals w2 = [] /\
    send_attempts evs = [] /\ requests evs = [].
Proof.
  intros Hc Hf Hid Hi Hnr.
  set (w1 := emit (ConsoleError "Monitoring channel not found" None)
               (emit (ConsoleLog ("Logged in as " +:+ user_tag w)) w)).
  assert (Hready : on_ready r w = (Ret tt, w1)).
  { rewrite on_ready_unfold. by apply (start_unknown_channel r _ cp id). }
  destruct (idle_run inputs w1 cp Hc Hi Hnr) as (w2 & evs & Hrun & Ht & Hi2 & Ha & Hq & _).
  exists w1, w2, evs. split; [done |]. split; [done |]. split; [| done].
  rewrite run_cons. cbn [handle]. by rewrite Hready.
Qed.

(** ** The administrative command *)

(** X9.  What a chat message does to the channel record: the command
    [.setup] from an administrator replaces the record by the channel
    the message came from and is confirmed by a reply; from anyone else
    it is answered by a refusal and writes nothing; any other message
    changes nothing at all. *)
Theorem channel_record_set_only_by_administrator m w cp :
  channelFile w = Some cp ->
  exists w',
    on_messageCreate m w = (Ret tt, w') /\
    (content m = ".setup" -> administrator m = true ->
       files w' = <[cp := channel_id m]> (files w) /\
       trace w' =
         trace w ++
         [ FileWrite cp (channel_id m);
           Reply (channel_id m)
                 ("Channel " +:+ channel_id m +:+ " set for HackerOne monitoring") ]) /\
    (content m = ".setup" -> administrator m = false ->
       files w' = files w /\
       trace w' =
         trace w ++
         [ Reply (channel_id m) "Only administrators can set monitoring channel" ]) /\
    (content m <> ".setup" -> w' = w).
Proof.
  intros Hc. unfold on_messageCreate.
  destruct (String.eqb_spec (content m) ".setup") as [Hs|Hs].
  - unfold setupMonitoringChannel. destruct (administrator m).
    + unfold bind, gets. rewrite Hc. cbn.
      eexists. split; [reflexivity |]. cbn.
      split; [intros _ _; by rewrite <- app_assoc |]. split; [done | done].
    + eexists. split; [reflexivity |]. cbn. split; [done |]. split; [done | done].
  - exists w. split; [done |]. split; [done |]. split; [done | done].
Qed.

(** X10.  Over any sequence of chat messages the channel record ends as
    the channel of the last [.setup] an administrator sent, and as it
    was when there is none; no other file changes and nothing is sent. *)
Theorem last_setup_wins ms w cp :
  channelFile w = Some cp ->
  exists w',
    run (map MessageCreate ms) w = (Ret tt, w') /\
    files w' !! cp = last_setup ms (files w !! cp) /\
    (forall q, q <> cp -> files w' !! q = files w !! q) /\
    send_attempts (trace w') = send_attempts (trace w) /\
    intervals w' = intervals w.
Proof.
  revert w. induction ms as [|m ms IH]; intros w Hc.
  - by exists w.
  - cbn [map last_setup]. rewrite run_cons. cbn [handle].
    assert (exists w1,
              on_messageCreate m w = (Ret tt, w1) /\
              channelFile w1 = Some cp /\
              files w1 !! cp =
                (if String.eqb (content m) ".setup" && administrator m
                 then Some (channel_id m) else files w !! cp) /\
              (forall q, q <> cp -> files w1 !! q = files w !! q) /\
              send_attempts (trace w1) = send_attempts (trace w) /\
              intervals w1 = intervals w) as (w1 & -> & Hc1 & Hf1 & Ho1 & Hs1 & Hi1).
    { unfold on_messageCreate, setupMonitoringChannel.
      destruct (String.eqb (content m) ".setup"); [| by exists w].
      destruct (administrator m); cbn.
      - unfold bind, gets. rewrite Hc. cbn. eexists. split; [reflexivity |]. cbn.
        rewrite lookup_insert_eq. split; [done |]. split; [done |].
        split; [intros q Hq; by rewrite lookup_insert_ne |].
        unfold send_attempts. rewrite !omap_app. cbn. by rewrite !app_nil_r.
      - eexists. split; [reflexivity |]. cbn.
        unfold send_attempts. rewrite !omap_app. cbn. by rewrite !app_nil_r. }
    destruct (IH w1 Hc1) as (w' & -> & Hf & Ho & Hs & Hi).
    exists w'. split; [done |]. rewrite Hf, Hf1, Hs, Hs1, Hi, Hi1.
    split; [done |]. split; [| done].
    intros q Hq. by rewrite Ho, Ho1.
Qed.

(** X11.  The command [.setup] does not move a monitor that is running:
    the record is replaced, but the next tick of a registered timer runs
    its cycle on the channel the timer was registered with. *)
Theorem setup_does_not_retarget_monitor m i ch r w cp :
  channelFile w = Some cp ->
  intervals w !! i = Some ch ->
  content m = ".setup" ->
  administrator m = true ->
  exists w1,
    on_messageCreate m w = (Ret tt, w1) /\
    files w1 !! cp = Some (channel_id m) /\
    run [MessageCreate m; Tick i r] w = checkHacktivityReports ch r w1.
Proof.
  intros Hc Hi Hs Ha.
  set (w1 := emit (Reply (channel_id m)
                     ("Channel " +:+ channel_id m +:+ " set for HackerOne monitoring"))
               (emit (FileWrite cp (channel_id m))
                  (set_files (<[cp:=channel_id m]> (files w)) w))).
  assert (Hm : on_messageCreate m w = (Ret tt, w1)).
  { unfold on_messageCreate, setupMonitoringChannel. rewrite Hs, Ha. cbn.
    unfold bind, gets. by rewrite Hc. }
  exists w1. split; [done |]. split; [cbn; by rewrite lookup_insert_eq |].
  rewrite run_cons. cbn [handle]. rewrite Hm.
  rewrite run_cons. cbn [handle].
  rewrite (on_interval_fires i r w1 ch) by done.
  pose proof (cycle_returns ch r w1) as Hret.
  destruct (checkHacktivityReports ch r w1) as [o w2]. simpl in Hret. by subst o.
Qed.

(** ** Start-up, file by file *)

Lemma boot_frame w :
  logFile w = None ->
  exists w',
    boot w = (Ret tt, w') /\
    logFile w' = Some (path_join (cwd w) "log.txt") /\
    channelFile w' = Some (path_join (cwd w) "channel.txt") /\
    files w' = <[path_join (cwd w) "log.txt" := ""]> (files w) /\
    trace w' =
      trace w ++
      [ FileWrite (path_join (cwd w) "log.txt") ""; ConsoleLog "Log file created" ] ++
      match files w !! path_join (cwd w) "channel.txt" with
      | Some _ => []
      | None => [ ConsoleLog channel_missing ]
      end /\
    cwd w' = cwd w /\ cache w' = cache w /\ deliver w' = deliver w /\
    sends w' = sends w /\ intervals w' = intervals w.
Proof.
  intros Hl. unfold boot, constructor, initializeFiles_begin, bind, gets, modify, ret.
  rewrite Hl. cbn.
  unfold initializeFiles_resume, bind, try_catch, gets, modify. cbn.
  rewrite lookup_insert_ne by (intros H; by apply (paths_differ (cwd w))).
  destruct (files w !! path_join (cwd w) "channel.txt") eqn:Hc; cbn;
    eexists; (split; [reflexivity |]); cbn; rewrite <- !app_assoc; done.
Qed.

(** X12.  Start-up writes one file, the ledger, and no other: the channel
    record and every other file keep their contents.  It logs that the
    log file was created, and that the channel file is missing exactly
    when there is no channel record; it sends nothing and registers no
    timer. *)
Theorem startup_writes_only_the_ledger w :
  logFile w = None ->
  exists w',
    boot w = (Ret tt, w') /\
    (forall q, q <> path_join (cwd w) "log.txt" -> files w' !! q = files w !! q) /\
    trace w' =
      trace w ++
      [ FileWrite (path_join (cwd w) "log.txt") ""; ConsoleLog "Log file created" ] ++
      match files w !! path_join (cwd w) "channel.txt" with
      | Some _ => []
      | None => [ ConsoleLog channel_missing ]
      end /\
    sends w' = sends w /\
    intervals w' = intervals w.
Proof.
  intros Hl.
  destruct (boot_frame w Hl) as (w' & Hb & _ & _ & Hf & Ht & _ & _ & _ & Hs & Hi).
  exists w'. split; [done |]. split; [| done].
  intros q Hq. by rewrite Hf, lookup_insert_ne.
Qed.

(** X13.  After a restart the ledger is empty, so the first cycle treats
    every fetched item with a non-empty identifier as novel: when they
    all format and are delivered, each of them is sent, whatever the
    ledger held before the restart. *)
Theorem restart_resends_the_batch ch nodes w :
  logFile w = None ->
  (forall n, n ∈ nodes -> report_id n <> "") ->
  (forall n, n ∈ nodes -> exists e, createReportEmbed n = Ret e) ->
  (forall k, k < length nodes -> deliver w (sends w + k) = true) ->
  exists w1 w2 evs,
    boot w = (Ret tt, w1) /\
    checkHacktivityReports ch (Nodes nodes) w1 = (Ret tt, w2) /\
    trace w2 = trace w1 ++ evs /\
    sent_items evs = nodes /\
    files w2 !! path_join (cwd w) "log.txt" = Some (ledger_text (map report_id nodes)).
Proof.
  intros Hl Hid Hfmt Hdel.
  destruct (boot_frame w Hl) as (w1 & Hb & Hl1 & _ & Hf1 & _ & _ & _ & Hd1 & Hs1 & _).
  assert (files w1 !! path_join (cwd w) "log.txt" = Some "") as Hlog.
  { by rewrite Hf1, lookup_insert_eq. }
  assert (List.filter (novel "") nodes = nodes) as Hall.
  { apply filter_all. intros n Hn. by apply novel_empty_ledger, Hid. }
  assert (formattable "" nodes) as Hf.
  { intros n Hn _. by apply Hfmt. }
  assert (delivered "" nodes w1) as Hd.
  { intros k Hk. rewrite Hd1, Hs1. apply Hdel. by rewrite Hall in Hk. }
  destruct (cycle_completes ch nodes w1 _ "" Hl1 Hlog Hf Hd)
    as (w2 & Hrun & _ & Ht & Hfiles & _).
  exists w1, w2, (HttpPost feed :: flat_map (item_events ch "" (path_join (cwd w) "log.txt")) nodes).
  split; [done |]. split; [done |]. split; [done |]. split.
  - change (sent_items (HttpPost feed :: ?l)) with (sent_items l).
    by rewrite (sent_items_items ch "" _ nodes Hf).
  - by rewrite Hfiles, Hall.
Qed.

(** ** The payload *)

Lemma rejected_currency_dec c : {rejected_currency c} + {~ rejected_currency c}.
Proof.
  unfold rejected_currency.
  destruct c as [| |s]; [left; by left | |];
    (destruct (IsWellFormedCurrencyCode _) eqn:Hw;
      [right; intros [H|H]; discriminate H | left; by right]).
Qed.

(** A payload is built when every check passes. *)
Lemma createReportEmbed_accepts n :
  setters_accept n = true ->
  ~ rejected_currency (team_currency n) ->
  fieldValuePredicate
    (VString ("💰 " +:+ currency_text (ToString (team_currency n))
                                      (total_awarded_amount n))) = true ->
  exists e, createReportEmbed n = Ret e.
Proof.
  intros Hs Hc Hv.
  rewrite (createReportEmbed_after_setters n Hs), (formatBounty_accepts _ _ Hc), Hv.
  by eexists.
Qed.

(** X14.  What [createReportEmbed] yields, check by check.  When a setter
    of the builder refuses the title, the link, the description or the
    colour, its error is thrown; an item whose severity is a name
    inherited from [Object.prototype] is refused in this way, its colour
    being no number.  When the setters accept, a currency that is missing
    or is not three ASCII letters throws the error of [formatBounty], and
    a bounty text that is no field value (more than 1024 code units) is
    refused by [addFields].  In every other case the payload is built: it
    has the item's title and link, the colour and label of its severity,
    the two inline fields Severity and Bounty in this order, and a
    description that ends with the summary, which is never empty: a
    missing or empty summary is replaced by the text No summary. *)
Theorem createReportEmbed_cases n :
  (setters_accept n = false ->
     exists setter, createReportEmbed n = Throw (ValidationError setter)) /\
  (ToString (severity_rating n) ∈ Object_prototype -> setters_accept n = false) /\
  (setters_accept n = true -> rejected_currency (team_currency n) ->
     exists err,
       formatBounty (total_awarded_amount n) (team_currency n) = Throw err /\
       createReportEmbed n = Throw err) /\
  (setters_accept n = true -> ~ rejected_currency (team_currency n) ->
   fieldValuePredicate
     (VString ("💰 " +:+ currency_text (ToString (team_currency n))
                                       (total_awarded_amount n))) = false ->
     createReportEmbed n = Throw (ValidationError "addFields")) /\
  (setters_accept n = true -> ~ rejected_currency (team_currency n) ->
   fieldValuePredicate
     (VString ("💰 " +:+ currency_text (ToString (team_currency n))
                                       (total_awarded_amount n))) = true ->
     exists e pre,
       createReportEmbed n = Ret e /\
       embed_title e = title (report n) /\
       embed_url e = url (report n) /\
       color e = getSeverityColor (severity_rating n) /\
       colorPredicate (color e) = true /\
       fields e =
         [ mkField "Severity" (getSeverityIcon (severity_rating n)) true;
           mkField "Bounty"
             (VString ("💰 " +:+ currency_text (ToString (team_currency n))
                                                (total_awarded_amount n))) true ] /\
       description e = pre +:+ summary_of (report n) /\
       summary_of (report n) <> "" /\
       (hacktivity_summary (report n) = None \/ hacktivity_summary (report n) = Some "" ->
        summary_of (report n) = "No summary")).
Proof.
  split; [apply createReportEmbed_refused |]. split; [| split; [| split]].
  - intros Hp. unfold setters_accept.
    rewrite (inherited_colour_refused _ Hp). apply andb_false_r.
  - intros Hs Hc.
    destruct (formatBounty_rejects (total_awarded_amount n) _ Hc) as [err He].
    exists err. split; [done |].
    by rewrite (createReportEmbed_after_setters n Hs), He.
  - intros Hs Hc Hv.
    by rewrite (createReportEmbed_after_setters n Hs), (formatBounty_accepts _ _ Hc), Hv.
  - intros Hs Hc Hv.
    pose proof (createReportEmbed_after_setters n Hs) as He.
    rewrite (formatBounty_accepts _ _ Hc), Hv in He.
    destruct (setters_accept_spec n Hs) as (_ & _ & _ & Hcol).
    eexists _, _. split; [exact He |]. cbn.
    split; [done |]. split; [done |]. split; [done |]. split; [done |].
    split; [done |].
    split; [unfold description_text; by rewrite <- !app_assoc_s |].
    unfold summary_of. destruct (hacktivity_summary (report n)) as [s|].
    + destruct (String.eqb_spec s "") as [->|Hne].
      * split; [done |]. done.
      * split; [done |]. intros [H|H]; [discriminate H | by injection H].
    + split; done.
Qed.

(** X15.  The severity of an item is looked up as it is written: one of
    the five categories yields the entry of the table (no entry is
    replaced by the fallback), and a severity that is neither a category
    nor a name inherited from [Object.prototype], [null] and a missing
    severity included, yields the dash and the colour 0. *)
Theorem severity_lookup_cases severity :
  (ToString severity ∈ known_severities ->
     icons !! ToString severity = Some (getSeverityIcon severity) /\
     colors !! ToString severity = Some (getSeverityColor severity)) /\
  (ToString severity ∉ known_severities ->
   ToString severity ∉ Object_prototype ->
     getSeverityIcon severity = VString "-" /\
     getSeverityColor severity = VNumber 0) /\
  (severity = JNull \/ severity = JUndefined ->
     getSeverityIcon severity = VString "-" /\
     getSeverityColor severity = VNumber 0).
Proof.
  split; [| split].
  - unfold known_severities, getSeverityIcon, getSeverityColor. intros Hk.
    repeat (apply elem_of_cons in Hk as [-> | Hk]; [split; reflexivity |]).
    by apply elem_of_nil in Hk.
  - apply severity_fallback.
  - intros [-> | ->]; split; reflexivity.
Qed.

End Bot.

(** * Scenarios *)

Arguments mkNode {Amount}.
Arguments Rejected {Amount}.
Arguments NoNodes {Amount}.
Arguments Nodes {Amount}.
Arguments ConsoleLog {Amount}.
Arguments ConsoleError {Amount}.
Arguments HttpPost {Amount}.
Arguments ChannelSend {Amount}.
Arguments FileWrite {Amount}.
Arguments FileAppend {Amount}.
Arguments Timeout {Amount}.
Arguments Reply {Amount}.
Arguments Ready {Amount}.
Arguments Tick {Amount}.
Arguments MessageCreate {Amount}.
Arguments mkWorld {Amount}.
Arguments files {Amount}.
Arguments trace {Amount}.
Arguments intervals {Amount}.
Arguments emit {Amount}.
Arguments report_id {Amount}.
Arguments send_attempts {Amount}.
Arguments sent_items {Amount}.

(** Amounts as integers and a rendering that prints the code only: the
    scenarios do not depend on the locale data. *)
Definition code_only (code : string) (amount : Z) : string := code.

(** The links of the scenarios are pages of hackerone.com.  The URL parser
    accepts every link that starts with https://hackerone.com/, whatever
    follows the host; these links stand for the accepted ones. *)
Definition hackerone_link (link : string) : bool :=
  Str.startsWith "https://hackerone.com/" link.

Definition item (id : string) (currency : nullable) : Node Z :=
  mkNode
    (mkReport id ("Report " +:+ id) ("https://hackerone.com/reports/" +:+ id) None)
    "alice" "Acme" "acme" currency (JString "High") 500%Z.

Definition ledger_path : string := "/srv/bot/log.txt".

Definition channel_path : string := "/srv/bot/channel.txt".

(** A bot whose constructor has run, with the given files. *)
Definition world (store : gmap string string) (net : nat -> bool) : World Z :=
  mkWorld "/srv/bot" "relay#0001" ["42"] net store
          (Some ledger_path) (Some channel_path) [] 0 [].

(** A process that has not run its constructor yet. *)
Definition unstarted (store : gmap string string) : World Z :=
  mkWorld "/srv/bot" "relay#0001" ["42"] (fun _ => true) store None None [] 0 [].

Definition always : nat -> bool := fun _ => true.

Definition first_fails : nat -> bool := fun k => negb (k =? 0).

Definition cycle (nodes : list (Node Z)) (w : World Z) : World Z :=
  (checkHacktivityReports Z code_only hackerone_link "42" (Nodes nodes) w).2.

Ltac each_item H :=
  repeat (apply elem_of_cons in H as [-> | H]);
  [ .. | by apply elem_of_nil in H ].

(** An item the builder refuses: the title is empty, the currency is
    fine.  The cycle logs the error of [setTitle] and calls no send, and
    B after it is not looked at. *)
Lemma untitled_item_is_refused :
  trace (cycle [ mkNode (mkReport "T" "" "https://hackerone.com/reports/T" None)
                        "alice" "Acme" "acme" (JString "USD") (JString "High") 500%Z;
                 item "B" (JString "USD") ]
               (world {[ ledger_path := "" ]} always)) =
  [ HttpPost feed;
    ConsoleError "Detailed error:" (Some (ValidationError "setTitle")) ].
Proof. reflexivity. Qed.

Lemma item_formats id :
  id ∈ ["A"; "B"; "C"] ->
  exists e, createReportEmbed Z code_only hackerone_link (item id (JString "USD")) = Ret e.
Proof. intros Hid. each_item Hid; eexists; reflexivity. Qed.

(** C1, the claim as written fails: the delivery for A fails, the next
    delivery would succeed, and B is never attempted. *)
Lemma send_failure_skips_rest :
  send_attempts
    (trace (cycle [item "A" (JString "USD"); item "B" (JString "USD")]
                    (world {[ ledger_path := "" ]} first_fails))) =
  [ (item "A" (JString "USD"), false) ] /\
  first_fails 1 = true.
Proof. split; reflexivity. Qed.

Definition second_fails : nat -> bool := fun k => negb (k =? 1).

(** C1, an instance: A is delivered and recorded, the delivery of B
    fails, C is not attempted, and the ledger holds A only. *)
Lemma send_failure_stops_cycle_witness :
  exists w',
    checkHacktivityReports Z code_only hackerone_link "42"
      (Nodes [item "A" (JString "USD"); item "B" (JString "USD"); item "C" (JString "USD")])
      (world {[ ledger_path := "" ]} second_fails) = (Ret tt, w') /\
    send_attempts (trace w') =
      [ (item "A" (JString "USD"), true); (item "B" (JString "USD"), false) ] /\
    files w' !! ledger_path = Some (ledger_text ["A"]).
Proof.
  destruct (item_formats "B") as [e He]; [compute_done |].
  destruct (send_failure_stops_cycle Z code_only hackerone_link "42"
              [item "A" (JString "USD")] (item "B" (JString "USD"))
              [item "C" (JString "USD")]
              (world {[ ledger_path := "" ]} second_fails) ledger_path "" e)
    as (w' & Hrun & Ht & Hfiles & _).
  - reflexivity.
  - reflexivity.
  - intros n Hn _. each_item Hn; apply item_formats; compute_done.
  - intros [|k] Hk; [reflexivity |]. vm_compute in Hk. lia.
  - reflexivity.
  - exact He.
  - reflexivity.
  - exists w'. split; [exact Hrun |]. split; [| exact Hfiles].
    rewrite Ht. cbn [trace world app].
    change (send_attempts (HttpPost feed :: ?l)) with (send_attempts l).
    rewrite send_attempts_app.
    rewrite (send_attempts_items Z code_only hackerone_link "42" "" ledger_path [item "A" (JString "USD")]).
    + reflexivity.
    + intros n Hn _. each_item Hn; apply item_formats; compute_done.
Defined.

(** The batch A, B, C of the specification's scenarios. *)
Definition batch_abc : list (Node Z) :=
  [ item "A" (JString "USD"); item "B" (JString "USD"); item "C" (JString "USD") ].

(** C3, the claim as written fails, in three ways; the ledger is empty and
    the identifiers are distinct each time.  When the first delivery
    fails, the cycle over A, B, C ends there: B and C get no
    notification and the ledger stays empty.  When an item cannot be
    formatted (X has no currency), the cycle ends before X and B are
    sent.  And an item whose identifier is the empty string is skipped,
    since the empty string is contained in every text. *)
Lemma dispatch_needs_every_item_to_succeed :
  (send_attempts (trace (cycle batch_abc (world {[ ledger_path := "" ]} first_fails))) =
     [ (item "A" (JString "USD"), false) ] /\
   files (cycle batch_abc (world {[ ledger_path := "" ]} first_fails)) !! ledger_path =
     Some "") /\
  (send_attempts
     (trace (cycle [item "X" JNull; item "B" (JString "USD")]
                   (world {[ ledger_path := "" ]} always))) = [] /\
   files (cycle [item "X" JNull; item "B" (JString "USD")]
                (world {[ ledger_path := "" ]} always)) !! ledger_path = Some "") /\
  (trace (cycle [item "" (JString "USD")] (world {[ ledger_path := "" ]} always)) =
     [ HttpPost feed; ConsoleLog " skipping..." ] /\
   files (cycle [item "" (JString "USD")] (world {[ ledger_path := "" ]} always))
     !! ledger_path = Some "").
Proof. repeat split; reflexivity. Qed.

(** C3, the scenario of the specification: empty ledger, batch A, B, C. *)
Lemma empty_ledger_dispatch_witness :
  exists w',
    checkHacktivityReports Z code_only hackerone_link "42" (Nodes batch_abc)
      (world {[ ledger_path := "" ]} always) = (Ret tt, w') /\
    files w' !! ledger_path = Some (ledger_text ["A"; "B"; "C"]).
Proof.
  destruct (empty_ledger_dispatch Z code_only hackerone_link "42" batch_abc
              (world {[ ledger_path := "" ]} always) ledger_path)
    as (w' & Hrun & _ & _ & _ & Hfiles).
  - reflexivity.
  - reflexivity.
  - intros n Hn. unfold batch_abc in Hn. each_item Hn; discriminate.
  - intros n Hn. unfold batch_abc in Hn. each_item Hn; apply item_formats; compute_done.
  - reflexivity.
  - exists w'. split; [exact Hrun | exact Hfiles].
Defined.



(** C10, an instance: the ledger holds 123 only; the item 12 was never
    sent and is not a line of the ledger, yet it is skipped. *)
Lemma membership_is_containment_witness :
  ("12" ∉ ["123"]) /\
  Str.occurs_in "12" (ledger_text ["123"]) /\
  (forall w : World Z,
     report_step Z code_only hackerone_link "42" (ledger_text ["123"]) (item "12" (JString "USD")) w =
     (Ret tt, emit (ConsoleLog "12 skipping...") w)).
Proof.
  assert (Str.occurs_in "12" (ledger_text ["123"])) as Hocc.
  { exists "", ("3" +:+ Str.nl). reflexivity. }
  split; [| split; [exact Hocc |]].
  - intros Hin. apply list_elem_of_singleton in Hin. discriminate Hin.
  - exact (proj1 (proj1 (proj2 (membership_is_containment Z code_only hackerone_link "42"
                                  (ledger_text ["123"]) (item "12" (JString "USD"))))
                        Hocc)).
Defined.



(** C6, an instance: the ledger holds B and the batch is A, B, C. *)
Lemma ledger_append_only_witness :
  exists evs : list (event Z),
    files (cycle batch_abc (world {[ ledger_path := ledger_text ["B"] ]} always))
      !! ledger_path =
      Some (ledger_text (["B"] ++ map (report_id) (sent_items evs))) /\
    length (["B"] ++ map (report_id) (sent_items evs)) =
      length ["B"] + length (sent_items evs).
Proof.
  destruct (ledger_append_only Z code_only hackerone_link
              (world {[ ledger_path := ledger_text ["B"] ]} always)
              ledger_path channel_path ["B"]) as [Hcycle _].
  - reflexivity.
  - reflexivity.
  - discriminate.
  - reflexivity.
  - destruct (Hcycle "42" (Nodes batch_abc) _ _ (surjective_pairing _))
      as (evs & _ & _ & Hfiles & Hlen).
    exists evs. split; [exact Hfiles | exact Hlen].
Defined.

(** C8, an instance: the request is rejected. *)
Lemma fetch_failure_is_contained_witness :
  exists err w',
    checkHacktivityReports Z code_only hackerone_link "42" Rejected
      (world {[ ledger_path := ledger_text ["B"] ]} always) = (Ret tt, w') /\
    w' = emit (ConsoleError "Detailed error:" (Some err))
           (emit (HttpPost feed) (world {[ ledger_path := ledger_text ["B"] ]} always)) /\
    files w' = {[ ledger_path := ledger_text ["B"] ]}.
Proof.
  destruct (fetch_failure_is_contained Z code_only hackerone_link "42" Rejected
              (world {[ ledger_path := ledger_text ["B"] ]} always))
    as (err & w' & Hrun & Hw & _ & _ & Hfiles & _).
  - intros nodes. discriminate.
  - exists err, w'. split; [exact Hrun |]. split; [exact Hw | exact Hfiles].
Defined.

(** C9, an instance: the process starts with a ledger and no channel
    record; after the bot is ready a timer tick, the administrative
    command and another tick follow. *)
Lemma unconfigured_destination_never_sends_witness :
  exists w2,
    run Z code_only hackerone_link
      [ Ready (Nodes batch_abc);
        Tick 0 (Nodes batch_abc);
        MessageCreate (mkMessage ".setup" "42" true);
        Tick 0 (Nodes batch_abc) ]
      (boot Z (unstarted {[ ledger_path := "" ]})).2 = (Ret tt, w2) /\
    intervals w2 = [].
Proof.
  destruct (unconfigured_destination_never_sends Z code_only hackerone_link
              (boot Z (unstarted {[ ledger_path := "" ]})).2
              channel_path (Nodes batch_abc)
              [ Tick 0 (Nodes batch_abc);
                MessageCreate (mkMessage ".setup" "42" true);
                Tick 0 (Nodes batch_abc) ])
    as (w1 & w2 & evs & _ & _ & Hrun & _ & Hint & _).
  - reflexivity.
  - reflexivity.
  - reflexivity.
  - intros r' Hin.
    repeat (apply elem_of_cons in Hin as [Hin | Hin]; [discriminate Hin |]).
    by apply elem_of_nil in Hin.
  - exists w2. split; [exact Hrun | exact Hint].
Defined.

(** C2, an instance: a ledger that holds 123 is empty once the bot has
    started. *)
Lemma startup_resets_ledger_witness :
  files (unstarted {[ ledger_path := ledger_text ["123"] ]}) !! ledger_path =
    Some (ledger_text ["123"]) /\
  exists w',
    boot Z (unstarted {[ ledger_path := ledger_text ["123"] ]}) = (Ret tt, w') /\
    files w' !! ledger_path = Some "".
Proof.
  split; [reflexivity |].
  destruct (startup_resets_ledger Z (unstarted {[ ledger_path := ledger_text ["123"] ]}))
    as (w' & Hboot & _ & Hfiles).
  - reflexivity.
  - exists w'. split; [exact Hboot | exact Hfiles].
Defined.

(** C7, an instance: the severity [constructor]. *)
Lemma inherited_severity_escapes_fallback_witness :
  ("constructor" ∉ known_severities) /\
  getSeverityIcon (JString "constructor") = VBuiltin "constructor" /\
  getSeverityColor (JString "constructor") = VBuiltin "constructor".
Proof.
  destruct (inherited_severity_escapes_fallback (JString "constructor"))
    as (Hk & Hi & Hc & _).
  - compute_done.
  - split; [exact Hk | split; [exact Hi | exact Hc]].
Defined.

(** The five known categories, as the tables give them. *)
Lemma severity_tables :
  map (fun s => getSeverityIcon (JString s)) known_severities =
    [ VString ":white_circle: Info"; VString ":green_circle: Low";
      VString ":yellow_circle: Medium"; VString ":orange_circle: High";
      VString ":red_circle: Critical" ] /\
  map (fun s => getSeverityColor (JString s)) known_severities =
    [ VNumber 0x808080; VNumber 0x00FF00; VNumber 0xFFFF00;
      VNumber 0xFF6600; VNumber 0xFF0000 ].
Proof. split; reflexivity. Qed.

(** * Further scenarios *)

Arguments skip_line {Amount}.
Arguments requests {Amount}.
Arguments sends {Amount}.

(** A bot whose monitor runs on channel 42. *)
Definition running (store : gmap string string) (net : nat -> bool) : World Z :=
  mkWorld "/srv/bot" "relay#0001" ["42"] net store
          (Some ledger_path) (Some channel_path) ["42"] 0 [].

(** X1, an instance: A and B are recorded; A has no currency. *)
Lemma recorded_batch_only_skips_witness :
  exists w',
    checkHacktivityReports Z code_only hackerone_link "42"
      (Nodes [item "A" JNull; item "B" (JString "USD")])
      (world {[ ledger_path := ledger_text ["A"; "B"] ]} always) = (Ret tt, w') /\
    trace w' =
      [] ++ HttpPost feed :: map skip_line [item "A" JNull; item "B" (JString "USD")] /\
    files w' = {[ ledger_path := ledger_text ["A"; "B"] ]}.
Proof.
  destruct (recorded_batch_only_skips Z code_only hackerone_link "42"
              [item "A" JNull; item "B" (JString "USD")]
              (world {[ ledger_path := ledger_text ["A"; "B"] ]} always)
              ledger_path (ledger_text ["A"; "B"]))
    as (w' & Hrun & Ht & Hfiles & _).
  - reflexivity.
  - reflexivity.
  - intros n Hn. each_item Hn; apply includes_spec; reflexivity.
  - exists w'. split; [exact Hrun |]. split; [exact Ht | exact Hfiles].
Defined.

(** X2, an instance: the batch A, B, C twice, from an empty ledger. *)
Lemma repeated_cycle_sends_nothing_witness :
  exists w1 w2,
    checkHacktivityReports Z code_only hackerone_link "42" (Nodes batch_abc)
      (world {[ ledger_path := "" ]} always) = (Ret tt, w1) /\
    checkHacktivityReports Z code_only hackerone_link "42" (Nodes batch_abc) w1 = (Ret tt, w2) /\
    files w2 = files w1 /\
    sends w2 = sends w1.
Proof.
  destruct (repeated_cycle_sends_nothing Z code_only hackerone_link "42" batch_abc
              (world {[ ledger_path := "" ]} always) ledger_path "")
    as (w1 & w2 & H1 & H2 & _ & Hf & Hs).
  - reflexivity.
  - reflexivity.
  - intros n Hn _. unfold batch_abc in Hn. each_item Hn; apply item_formats; compute_done.
  - intros k _. reflexivity.
  - exists w1, w2. split; [exact H1 |]. split; [exact H2 |]. split; [exact Hf | exact Hs].
Defined.


(** X4, an instance: every send of the cycle over A, B, C goes to 42. *)
Lemma sends_carry_the_formatted_item_witness :
  exists evs,
    trace (cycle batch_abc (world {[ ledger_path := "" ]} always)) = [] ++ evs /\
    forall c n e ok, ChannelSend c n e ok ∈ evs -> c = "42".
Proof.
  destruct (sends_carry_the_formatted_item Z code_only hackerone_link "42" (Nodes batch_abc)
              (world {[ ledger_path := "" ]} always) _ _ (surjective_pairing _))
    as (evs & Ht & Hsend).
  exists evs. split; [exact Ht |].
  intros c n e ok Hin. exact (proj1 (Hsend c n e ok Hin)).
Defined.

(** X5, an instance: the cycle over A, B in which the first delivery
    fails. *)
Lemma cycle_budget_witness :
  exists evs failed,
    trace (cycle [item "A" (JString "USD"); item "B" (JString "USD")]
                 (world {[ ledger_path := "" ]} first_fails)) = [] ++ evs /\
    requests evs = [feed] /\
    send_attempts evs = map (fun n => (n, true)) (sent_items evs) ++ failed /\
    length failed <= 1.
Proof.
  destruct (cycle_budget Z code_only hackerone_link "42"
              (Nodes [item "A" (JString "USD"); item "B" (JString "USD")])
              (world {[ ledger_path := "" ]} first_fails) _ _ (surjective_pairing _))
    as (_ & evs & failed & Ht & Hq & _ & Ha & Hl & _).
  exists evs, failed. split; [exact Ht |]. split; [exact Hq |]. split; [exact Ha | exact Hl].
Defined.

(** X6, an instance: the monitor runs, the ledger file is gone, two ticks. *)
Lemma missing_ledger_stops_relay_witness :
  exists w',
    run Z code_only hackerone_link [Tick 0 (Nodes batch_abc); Tick 0 (Nodes batch_abc)]
      (running ∅ always) = (Ret tt, w') /\
    files w' = ∅ /\
    send_attempts (trace w') = [].
Proof.
  destruct (missing_ledger_stops_relay Z code_only hackerone_link (running ∅ always) ledger_path)
    as [_ Hticks].
  - reflexivity.
  - reflexivity.
  - destruct (Hticks [(0, Nodes batch_abc); (0, Nodes batch_abc)])
      as (w' & Hrun & Hf & Hs).
    exists w'. split; [exact Hrun |]. split; [exact Hf | exact Hs].
Defined.

(** X7, an instance: the channel record holds 42, which the client
    knows. *)
Lemma monitoring_starts_on_recorded_channel_witness :
  exists w2,
    on_ready Z code_only hackerone_link (Nodes batch_abc)
      (world {[ ledger_path := ""; channel_path := "42" ]} always) = (Ret tt, w2) /\
    intervals w2 = ["42"].
Proof.
  destruct (monitoring_starts_on_recorded_channel Z code_only hackerone_link (Nodes batch_abc)
              (world {[ ledger_path := ""; channel_path := "42" ]} always)
              channel_path "42")
    as (w1 & w2 & _ & Hready & Hw2 & _).
  - reflexivity.
  - reflexivity.
  - left.
  - exists w2. split; [exact Hready |]. rewrite Hw2. reflexivity.
Defined.

(** X8, an instance: the channel record holds 99, which the client does
    not know. *)
Lemma unknown_channel_never_polls_witness :
  exists w2,
    run Z code_only hackerone_link [Ready (Nodes batch_abc); Tick 0 (Nodes batch_abc)]
      (world {[ ledger_path := ""; channel_path := "99" ]} always) = (Ret tt, w2) /\
    intervals w2 = [].
Proof.
  destruct (unknown_channel_never_polls Z code_only hackerone_link
              (world {[ ledger_path := ""; channel_path := "99" ]} always)
              channel_path "99" (Nodes batch_abc) [Tick 0 (Nodes batch_abc)])
    as (w1 & w2 & evs & _ & _ & Hrun & _ & Hint & _).
  - reflexivity.
  - reflexivity.
  - intros Hin. apply list_elem_of_singleton in Hin. discriminate Hin.
  - reflexivity.
  - intros r' Hin. apply list_elem_of_singleton in Hin. discriminate Hin.
  - exists w2. split; [exact Hrun | exact Hint].
Defined.

(** X9, an instance: someone who is no administrator sends the command. *)
Lemma channel_record_set_only_by_administrator_witness :
  exists w',
    on_messageCreate Z (mkMessage ".setup" "7" false)
      (world {[ channel_path := "42" ]} always) = (Ret tt, w') /\
    files w' = {[ channel_path := "42" ]}.
Proof.
  destruct (channel_record_set_only_by_administrator Z (mkMessage ".setup" "7" false)
              (world {[ channel_path := "42" ]} always) channel_path)
    as (w' & Hrun & _ & Hno & _).
  - reflexivity.
  - exists w'. split; [exact Hrun |]. exact (proj1 (Hno eq_refl eq_refl)).
Defined.

(** X10, an instance: two administrators and one other member send the
    command, then someone greets. *)
Lemma last_setup_wins_witness :
  exists w',
    run Z code_only hackerone_link
      (map MessageCreate
         [ mkMessage ".setup" "1" true; mkMessage ".setup" "2" true;
           mkMessage ".setup" "3" false; mkMessage "hello" "4" true ])
      (world ∅ always) = (Ret tt, w') /\
    files w' !! channel_path = Some "2".
Proof.
  destruct (last_setup_wins Z code_only hackerone_link
              [ mkMessage ".setup" "1" true; mkMessage ".setup" "2" true;
                mkMessage ".setup" "3" false; mkMessage "hello" "4" true ]
              (world ∅ always) channel_path)
    as (w' & Hrun & Hf & _).
  - reflexivity.
  - exists w'. split; [exact Hrun | exact Hf].
Defined.

(** X11, an instance: the monitor runs on 42 and an administrator sends
    the command in channel 7. *)
Lemma setup_does_not_retarget_monitor_witness :
  exists w1,
    files w1 !! channel_path = Some "7" /\
    run Z code_only hackerone_link [MessageCreate (mkMessage ".setup" "7" true); Tick 0 (Nodes batch_abc)]
      (running {[ ledger_path := ""; channel_path := "42" ]} always) =
    checkHacktivityReports Z code_only hackerone_link "42" (Nodes batch_abc) w1.
Proof.
  destruct (setup_does_not_retarget_monitor Z code_only hackerone_link (mkMessage ".setup" "7" true)
              0 "42" (Nodes batch_abc)
              (running {[ ledger_path := ""; channel_path := "42" ]} always) channel_path)
    as (w1 & _ & Hf & Hrun).
  - reflexivity.
  - reflexivity.
  - reflexivity.
  - reflexivity.
  - exists w1. split; [exact Hf | exact Hrun].
Defined.

(** X12, an instance: start-up with a ledger and a channel record. *)
Lemma startup_writes_only_the_ledger_witness :
  exists w',
    boot Z (unstarted {[ ledger_path := ledger_text ["123"]; channel_path := "42" ]}) =
      (Ret tt, w') /\
    files w' !! channel_path = Some "42" /\
    trace w' = [] ++ [ FileWrite ledger_path ""; ConsoleLog "Log file created" ] ++ [].
Proof.
  destruct (startup_writes_only_the_ledger Z
              (unstarted {[ ledger_path := ledger_text ["123"]; channel_path := "42" ]}))
    as (w' & Hboot & Hother & Ht & _).
  - reflexivity.
  - exists w'. split; [exact Hboot |]. split; [| exact Ht].
    rewrite Hother; [reflexivity | discriminate].
Defined.

(** X13, an instance: A, B and C are recorded, the process restarts, and
    the feed returns A, B, C. *)
Lemma restart_resends_the_batch_witness :
  exists w1 w2 evs,
    boot Z (unstarted {[ ledger_path := ledger_text ["A"; "B"; "C"] ]}) = (Ret tt, w1) /\
    checkHacktivityReports Z code_only hackerone_link "42" (Nodes batch_abc) w1 = (Ret tt, w2) /\
    trace w2 = trace w1 ++ evs /\
    sent_items evs = batch_abc.
Proof.
  destruct (restart_resends_the_batch Z code_only hackerone_link "42" batch_abc
              (unstarted {[ ledger_path := ledger_text ["A"; "B"; "C"] ]}))
    as (w1 & w2 & evs & Hboot & Hrun & Ht & Hs & _).
  - reflexivity.
  - intros n Hn. unfold batch_abc in Hn. each_item Hn; discriminate.
  - intros n Hn. unfold batch_abc in Hn. each_item Hn; apply item_formats; compute_done.
  - intros k _. reflexivity.
  - exists w1, w2, evs. split; [exact Hboot |]. split; [exact Hrun |].
    split; [exact Ht | exact Hs].
Defined.
